(** * ng-packagr: build graph, caching compiler host, source versioning
      and the content-addressed transform cache

    A shallow embedding of
      - [initTsConfigTransformFactory]      (init-tsconfig transform),
      - [cacheCompilerHost]                 (the caching compiler host),
      - [augmentProgramWithVersioning]      (source versioning),
      - [downlevelCodeWithTsc]              (downlevel plugin and its cache),
      - the runner of the integration samples,
    together with the properties the specification states about them and
    further properties read off the code.

    JavaScript strings are [string]; a JS [Map] keyed by strings is a
    [gmap string _] where only lookup matters and a list where the
    insertion order is observable ([BuildGraph.find]); an optional or
    [undefined] value is an [option]; a function that may throw returns
    a [Result].  Calls into collaborators that live outside the repository
    (the TypeScript compiler host, [path], [crypto], [convert-source-map],
    the stylesheet processor) are parameters of the development, and every
    call to one of them is appended to a trace so that "is not invoked
    again" is a statement about that trace. *)

From Stdlib Require Import String Ascii List Bool Arith Lia.
From stdpp Require Import base option list gmap strings fin_maps.

Local Open Scope string_scope.
Local Open Scope list_scope.

(* ===================================================================== *)
(** * JavaScript string primitives *)
(* ===================================================================== *)

Module JsString.

(** [s.startsWith(p)] *)
Fixpoint startsWith (s p : string) : bool :=
  match p, s with
  | EmptyString, _ => true
  | String _ _, EmptyString => false
  | String a p', String b s' => Ascii.eqb a b && startsWith s' p'
  end.

(** The suffix of [s] that starts at index [n]. *)
Fixpoint drop (n : nat) (s : string) : string :=
  match n, s with
  | O, _ => s
  | S _, EmptyString => EmptyString
  | S n', String _ s' => drop n' s'
  end.

(** The prefix of [s] of length [n]. *)
Fixpoint take (n : nat) (s : string) : string :=
  match n, s with
  | O, _ => EmptyString
  | S _, EmptyString => EmptyString
  | S n', String c s' => String c (take n' s')
  end.

(** [s.endsWith(p)] *)
Definition endsWith (s p : string) : bool :=
  Nat.leb (String.length p) (String.length s) &&
  String.eqb (drop (String.length s - String.length p) s) p.

(** [s.replace(pat, rep)] for a string pattern [pat] and a replacement
    [rep] without [$]: the first (leftmost) occurrence of [pat] is replaced,
    and [s] is returned as it is when [pat] does not occur. *)
Fixpoint replace (s pat rep : string) : string :=
  if startsWith s pat then rep +:+ drop (String.length pat) s
  else match s with
       | EmptyString => EmptyString
       | String c s' => String c (replace s' pat rep)
       end.

(** [s.replace(/\.js(\.map)?$/, '.mjs$1')]: the pattern is anchored at the
    end of the input, so it matches the suffix [.js.map] or the suffix
    [.js] and nothing else. *)
Definition replaceJsExtension (s : string) : string :=
  if endsWith s ".js.map" then take (String.length s - 7) s +:+ ".mjs.map"
  else if endsWith s ".js" then take (String.length s - 3) s +:+ ".mjs"
  else s.

Definition lower (c : ascii) : ascii :=
  let n := nat_of_ascii c in
  if Nat.leb 65 n && Nat.leb n 90 then ascii_of_nat (n + 32) else c.

(** [s.toLowerCase()] on the ASCII letters; other bytes are kept. *)
Fixpoint toLowerCase (s : string) : string :=
  match s with
  | EmptyString => EmptyString
  | String c s' => String (lower c) (toLowerCase s')
  end.

(** JavaScript truthiness of a value of type [string | undefined]. *)
Definition truthy (o : option string) : bool :=
  match o with
  | Some s => negb (String.eqb s "")
  | None => false
  end.

End JsString.

(* ===================================================================== *)
(** * Results of calls that may throw *)
(* ===================================================================== *)

Inductive Result (A : Type) : Type :=
| Ok (a : A)
| Throw (message : string).
Arguments Ok {A} a.
Arguments Throw {A} message.

(** A computation on a state [S] that returns or throws; what it did to the
    state before it threw stays done. *)
Definition Eff (S A : Type) : Type := S → Result A * S.

#[global] Instance Eff_ret {S} : MRet (Eff S) := λ A a s, (Ok a, s).
#[global] Instance Eff_bind {S} : MBind (Eff S) := λ A B f m s,
  match m s with
  | (Ok a, s') => f a s'
  | (Throw e, s') => (Throw e, s')
  end.

Definition throw {S A} (message : string) : Eff S A := λ s, (Throw message, s).

(** [array.forEach(f)] *)
Fixpoint forEach {S A} (f : A → Eff S unit) (l : list A) : Eff S unit :=
  match l with
  | [] => mret tt
  | x :: l' => f x ;; forEach f l'
  end.

(** [array.map(f)] for an [f] with effects *)
Fixpoint mapM {S A B} (f : A → Eff S B) (l : list A) : Eff S (list B) :=
  match l with
  | [] => mret []
  | x :: l' => y ← f x; ys ← mapM f l'; mret (y :: ys)
  end.

(** [keeps R m]: whatever [m] does, the state it leaves is related by [R]
    to the state it started in. *)
Definition keeps {S A} (R : S → S → Prop) (m : Eff S A) : Prop :=
  ∀ s, R s (m s).2.

(* ===================================================================== *)
(** * The build graph *)
(* ===================================================================== *)

Module Graph.

(** Modelled from the spec: the [TsConfig] type (ts/tsconfig is not part
    of the sources): the resolved compiler options of an entry point, kept
    as a list of option names and values. *)
Definition TsConfig : Type := list (string * string).

(** The fields of [entryPoint.data.entryPoint] that the sources read. *)
Record NgEntryPoint : Type := mkNgEntryPoint {
  flatModuleFile : string;
  destinationPath : string;
  entryFile : string
}.

(** Modelled from the spec: the life cycle of an entry point, "one of
    pending, in-progress, done". *)
Inductive EntryPointState : Type :=
| StatePending
| StateInProgress
| StateDone.

(** [entryPoint.data]: the payload of an entry point node. *)
Record EntryPointData : Type := mkEntryPointData {
  entryPoint : NgEntryPoint;
  outDir : string;
  tsConfig : option TsConfig
}.

(** Modelled from the spec: the payload of a node is a "type-discriminated
    value"; a node made by [new Node(url)] has no payload. *)
Inductive Payload : Type :=
| PlainNode
| EntryPointNode (state : EntryPointState) (data : EntryPointData).

Record Node : Type := mkNode {
  url : string;
  payload : Payload
}.

(** [new Node(url)] *)
Definition newNode (u : string) : Node := mkNode u PlainNode.

(** Modelled from the spec: BuildGraph (graph/build-graph is not part of
    the sources): "a mapping from URI to Node plus a directed dependency
    relation".  The nodes are kept in insertion order, as the JS [Map] that
    [find] iterates; an edge [(a, b)] says that the node at [a] depends on
    the node at [b]. *)
Record BuildGraph : Type := mkBuildGraph {
  store : list Node;
  edges : gset (string * string)
}.

Definition empty : BuildGraph := mkBuildGraph [] ∅.

(** Modelled from the spec: "get(uri) -> Node | absent: exact lookup; does
    not create". *)
Fixpoint lookupNode (u : string) (l : list Node) : option Node :=
  match l with
  | [] => None
  | n :: l' => if String.eqb (url n) u then Some n else lookupNode u l'
  end.

Definition get (u : string) (g : BuildGraph) : option Node :=
  lookupNode u (store g).

(** Modelled from the spec: "put(node): inserts a node, keyed by its URI;
    overwrites any previous node at that URI". *)
Fixpoint putNode (n : Node) (l : list Node) : list Node :=
  match l with
  | [] => [n]
  | m :: l' => if String.eqb (url m) (url n) then n :: l' else m :: putNode n l'
  end.

Definition put (n : Node) (g : BuildGraph) : BuildGraph :=
  mkBuildGraph (putNode n (store g)) (edges g).

(** Modelled from the spec: "Node.dependsOn(other): records a directed
    edge; idempotent".  Nodes are identified by their URL, so an edge is a
    pair of URLs. *)
Definition dependsOn (a b : string) (g : BuildGraph) : BuildGraph :=
  mkBuildGraph (store g) ({[ (a, b) ]} ∪ edges g).

(** Modelled from the spec: the predicate "entry point whose state is
    in-progress" ([isEntryPointInProgress] of ng-package/nodes). *)
Definition isEntryPointInProgress (n : Node) : Prop :=
  match payload n with
  | EntryPointNode StateInProgress _ => True
  | _ => False
  end.

#[global] Instance isEntryPointInProgress_dec n :
  Decision (isEntryPointInProgress n).
Proof.
  unfold isEntryPointInProgress.
  destruct (payload n) as [|[] ?]; apply _.
Defined.

(** Modelled from the spec: "find(predicate) -> Node: returns the first node
    matching a predicate over payload".  The position is returned with the
    node: the caller mutates the node it was handed, which is the object
    stored at that position. *)
Definition find (P : Node → Prop) `{∀ n, Decision (P n)} (g : BuildGraph)
  : option (nat * Node) :=
  list_find P (store g).

End Graph.

(* ===================================================================== *)
(** * The init-tsconfig transform *)
(* ===================================================================== *)

Module InitTsConfig.
Import Graph.

Section Transform.

(** [initializeTsConfig] of ts/tsconfig, a function of the default
    configuration, the entry point and its output directory. *)
Variable initializeTsConfig : TsConfig → NgEntryPoint → string → TsConfig.

(** [entryPoint.data.tsConfig = tsConfig] *)
Definition setTsConfig (c : TsConfig) (n : Node) : Node :=
  match payload n with
  | EntryPointNode st d =>
      mkNode (url n)
        (EntryPointNode st (mkEntryPointData (entryPoint d) (outDir d) (Some c)))
  | PlainNode => n
  end.

(** The transform made by [initTsConfigTransformFactory(defaultTsConfig)],
    run on a graph.  The graph is one mutable object: the value returned is
    that object, in the state the transform leaves it in.  When [find] has
    no match, reading [entryPoint.data] throws a [TypeError]. *)
Definition initTsConfigTransformFactory (defaultTsConfig : TsConfig)
    (graph : BuildGraph) : Result BuildGraph :=
  match find isEntryPointInProgress graph with
  | Some (i, ep) =>
      match payload ep with
      | EntryPointNode _ d =>
          let tsConfig :=
            initializeTsConfig defaultTsConfig (entryPoint d) (outDir d) in
          Ok (mkBuildGraph (<[i := setTsConfig tsConfig ep]> (store graph))
                           (edges graph))
      | PlainNode => Throw "TypeError: Cannot read properties of undefined"
      end
  | None => Throw "TypeError: Cannot read properties of undefined"
  end.

End Transform.

End InitTsConfig.

(* ===================================================================== *)
(** * TypeScript source files *)
(* ===================================================================== *)

Module Ts.

(** The fields of [ts.SourceFile & { version?: string }] that the sources
    read or assign. *)
Record SourceFile : Type := mkSourceFile {
  fileName : string;
  text : string;
  version : option string
}.

End Ts.

(* ===================================================================== *)
(** * The caching compiler host *)
(* ===================================================================== *)

Module OutputCache.

(** An entry of [entryPoint.cache.outputCache]:
    [{ content, version, map }]. *)
Record Entry : Type := mkEntry {
  content : string;
  version : string;
  map : option string
}.

End OutputCache.

Module CacheHost.
Import Graph.

(** Modelled from the spec: an entry of the file cache
    (file-system/file-cache is not part of the sources): "per file path:
    existence flag, parsed-source handle, raw content, resolved
    declaration-output path"; [None] is [undefined], "not yet computed".
    The field [exists] of the source is [exists_] here. *)
Record CacheEntry : Type := mkCacheEntry {
  exists_ : option bool;
  sourceFile : option Ts.SourceFile;
  content : option string;
  declarationFileName : option string
}.

(** The object [{}] that [getOrCreate] stores for a new path. *)
Definition emptyEntry : CacheEntry := mkCacheEntry None None None None.

(** Functions of libraries and of modules outside the sources. *)
Record Externals : Type := mkExternals {
  path_join : string → string → string;
  path_basename : string → string;
  path_extname : string → string;
  path_dirname : string → string;
  path_resolve : string → string → string;
  ensureUnixPath : string → string;
  fileUrl : string → string;
  (** [createHash('sha256').update(data).digest('hex')] *)
  sha256_hex : string → string;
  (** [createHash('sha1').update(data).digest('hex')] *)
  sha1_hex : string → string;
  (** [convertSourceMap.fromComment(data).toJSON()]; [None] when it throws *)
  fromComment_toJSON : string → option string;
  (** [ts.resolveModuleName(name, containingFile, ...).resolvedModule] *)
  ts_resolveModuleName : string → string → option string
}.

(** The host made by [ts.createIncrementalCompilerHost(compilerOptions)]:
    what its methods answer. *)
Record CompilerHost : Type := mkCompilerHost {
  host_fileExists : string → bool;
  host_getSourceFile : string → nat → option Ts.SourceFile;
  host_readFile : string → option string
}.

(** The arguments of [cacheCompilerHost] that its closures capture: the
    entry point node (its URL and its [data.entryPoint]), the stylesheet
    processor and the inline style language. *)
Record HostConfig : Type := mkHostConfig {
  entryPointUrl : string;
  ngEntryPoint : NgEntryPoint;
  stylesheetProcessor : option (string → option string → string);
  inlineStyleLanguage : option string
}.

(** A call that leaves the caching host. *)
Inductive Call : Type :=
| CallFileExists (fileName : string)
| CallGetSourceFile (fileName : string) (languageVersion : nat)
| CallReadFile (fileName : string)
| CallWriteFile (fileName data : string) (writeByteOrderMark : bool)
| CallFromComment (data : string)
| CallProcess (filePath : string) (content : option string)
| CallResolveModuleName (moduleName containingFile : string).

(** The mutable objects the closures share: the build graph, the file
    cache, the output cache of the entry point, and the calls made so
    far. *)
Record State : Type := mkState {
  graph : BuildGraph;
  sourcesFileCache : gmap string CacheEntry;
  outputCache : gmap string OutputCache.Entry;
  trace : list Call
}.

Abbreviation M := (Eff State).

Definition withGraph (f : BuildGraph → BuildGraph) : M unit := λ s,
  (Ok tt, mkState (f (graph s)) (sourcesFileCache s) (outputCache s) (trace s)).

Definition withFileCache
    (f : gmap string CacheEntry → gmap string CacheEntry) : M unit := λ s,
  (Ok tt, mkState (graph s) (f (sourcesFileCache s)) (outputCache s) (trace s)).

Definition withOutputCache
    (f : gmap string OutputCache.Entry → gmap string OutputCache.Entry)
  : M unit := λ s,
  (Ok tt, mkState (graph s) (sourcesFileCache s) (f (outputCache s)) (trace s)).

(** [outputCache.get(fileName)] *)
Definition outputCacheGet (fileName : string)
  : M (option OutputCache.Entry) := λ s,
  (Ok (outputCache s !! fileName), s).

(** Records a call that leaves the host and returns its answer. *)
Definition call {A} (c : Call) (answer : A) : M A := λ s,
  (Ok answer,
   mkState (graph s) (sourcesFileCache s) (outputCache s) (trace s ++ [c])).

(** Modelled from the spec: [FileCache.getOrCreate]: the entry of the path,
    made empty on first use. *)
Definition getOrCreate (fileName : string) : M CacheEntry := λ s,
  match sourcesFileCache s !! fileName with
  | Some entry => (Ok entry, s)
  | None =>
      (Ok emptyEntry,
       mkState (graph s) (<[fileName := emptyEntry]> (sourcesFileCache s))
               (outputCache s) (trace s))
  end.

(** The entry object of a path as a reader sees it: a path without an
    entry and a path with the empty entry [{}] have all fields
    [undefined]. *)
Definition cached (s : State) (fileName : string) : CacheEntry :=
  default emptyEntry (sourcesFileCache s !! fileName).

(** An assignment to a field of [cache], the entry object that
    [getOrCreate] returned for the path. *)
Definition updateEntry (fileName : string) (f : CacheEntry → CacheEntry)
  : M unit :=
  withFileCache (λ m, <[fileName := f (default emptyEntry (m !! fileName))]> m).

(** [cache.exists = v] *)
Definition setExists (fileName : string) (v : bool) : M unit :=
  updateEntry fileName (λ e,
    mkCacheEntry (Some v) (sourceFile e) (content e) (declarationFileName e)).

(** [cache.sourceFile = v] *)
Definition setSourceFile (fileName : string) (v : option Ts.SourceFile)
  : M unit :=
  updateEntry fileName (λ e,
    mkCacheEntry (exists_ e) v (content e) (declarationFileName e)).

(** [cache.content = v] *)
Definition setContent (fileName : string) (v : option string) : M unit :=
  updateEntry fileName (λ e,
    mkCacheEntry (exists_ e) (sourceFile e) v (declarationFileName e)).

(** [cache.declarationFileName = v] *)
Definition setDeclarationFileName (fileName : string) (v : string)
  : M unit :=
  updateEntry fileName (λ e,
    mkCacheEntry (exists_ e) (sourceFile e) (content e) (Some v)).

(** The [context] argument of [transformResource]. *)
Record ResourceContext : Type := mkResourceContext {
  resourceFile : option string;
  resourceType : string;
  containingFile : string
}.

Section Host.

Variable X : Externals.
Variable compilerHost : CompilerHost.
Variable config : HostConfig.

(** [getNode]: the node of a file, created on first use. *)
Definition getNode (fileName : string) : M Node := λ s,
  let nodeUri := fileUrl X (ensureUnixPath X fileName) in
  match Graph.get nodeUri (graph s) with
  | Some node => (Ok node, s)
  | None =>
      let node := newNode nodeUri in
      (Ok node,
       mkState (Graph.put node (graph s)) (sourcesFileCache s)
               (outputCache s) (trace s))
  end.

(** [addDependee]: [entryPoint.dependsOn(getNode(fileName))] *)
Definition addDependee (fileName : string) : M unit :=
  node ← getNode fileName;
  withGraph (Graph.dependsOn (entryPointUrl config) (url node)).

Definition flatModuleFileDtsFilename : string :=
  flatModuleFile (ngEntryPoint config) +:+ ".d.ts".

Definition flatModuleFileDtsPath : string :=
  ensureUnixPath X
    (path_join X (destinationPath (ngEntryPoint config))
               flatModuleFileDtsFilename).

Definition hasIndexEntryFile : bool :=
  String.eqb
    (path_basename X (JsString.toLowerCase (entryFile (ngEntryPoint config))))
    "index.ts".

Definition fileExists (fileName : string) : M bool :=
  cache ← getOrCreate fileName;
  match exists_ cache with
  | None =>
      b ← call (CallFileExists fileName)
               (host_fileExists compilerHost fileName);
      setExists fileName b ;;
      mret b
  | Some b => mret b
  end.

Definition getSourceFile (fileName : string) (languageVersion : nat)
  : M (option Ts.SourceFile) :=
  addDependee fileName ;;
  cache ← getOrCreate fileName;
  match sourceFile cache with
  | None =>
      sf ← call (CallGetSourceFile fileName languageVersion)
                (host_getSourceFile compilerHost fileName languageVersion);
      setSourceFile fileName sf ;;
      mret sf
  | Some sf => mret (Some sf)
  end.

(** The body of [sourceFiles.forEach] in [writeFile]. *)
Definition recordDeclaration (fileName : string) (source : Ts.SourceFile)
  : M unit :=
  cache ← getOrCreate (Ts.fileName source);
  if JsString.truthy (declarationFileName cache) then mret tt
  else setDeclarationFileName (Ts.fileName source)
                              (ensureUnixPath X fileName).

(** The declaration branch of [writeFile] after the flat module file has
    been dealt with; [sourceFiles.forEach] throws when [sourceFiles] is
    [undefined]. *)
Definition recordDeclarations (fileName : string)
    (sourceFiles : option (list Ts.SourceFile)) : M unit :=
  match sourceFiles with
  | Some sources => forEach (recordDeclaration fileName) sources
  | None => throw "TypeError: Cannot read properties of undefined"
  end.

(** [convertSourceMap.fromComment(data).toJSON()] *)
Definition extractSourceMap (data : string) : M (option string) :=
  r ← call (CallFromComment data) (fromComment_toJSON X data);
  match r with
  | Some json => mret (Some json)
  | None => throw "Error: cannot parse the source map comment"
  end.

Definition hostWriteFile (fileName data : string) (bom : bool) : M unit :=
  call (CallWriteFile fileName data bom) tt.

(** What [writeFile] does with a declaration file once its name is settled:
    the loop over [sourceFiles] and the call of the underlying host. *)
Definition writeDeclaration (fileName data : string) (bom : bool)
    (sourceFiles : option (list Ts.SourceFile)) : M unit :=
  recordDeclarations fileName sourceFiles ;;
  hostWriteFile fileName data bom.

(** [writeFile]; the [onError] argument is handed on untouched and left
    out. *)
Definition writeFile (fileName data : string) (writeByteOrderMark : bool)
    (sourceFiles : option (list Ts.SourceFile)) : M unit :=
  if JsString.endsWith fileName ".d.ts" then
    if String.eqb fileName flatModuleFileDtsPath then
      if hasIndexEntryFile then mret tt
      else
        writeDeclaration
          (JsString.replace fileName flatModuleFileDtsFilename "index.d.ts")
          data writeByteOrderMark sourceFiles
    else writeDeclaration fileName data writeByteOrderMark sourceFiles
  else
    let fileName := JsString.replaceJsExtension fileName in
    let version := sha256_hex X data in
    map ← (if JsString.endsWith fileName ".mjs" then
             cachedData ← outputCacheGet fileName;
             match cachedData with
             | Some cachedData =>
                 if String.eqb (OutputCache.version cachedData) version
                 then mret (OutputCache.map cachedData)
                 else extractSourceMap data
             | None => extractSourceMap data
             end
           else mret None);
    withOutputCache (<[fileName := OutputCache.mkEntry data version map]>) ;;
    hostWriteFile fileName data writeByteOrderMark.

Definition readFile (fileName : string) : M (option string) :=
  addDependee fileName ;;
  cache ← getOrCreate fileName;
  match content cache with
  | None =>
      c ← call (CallReadFile fileName) (host_readFile compilerHost fileName);
      setContent fileName c ;;
      mret c
  | Some c => mret (Some c)
  end.

(** The resolver is handed the underlying host and the resolution cache of
    the compiler; what it does with them is its own business and is recorded
    as one call per module name. *)
Definition resolveModuleNames (moduleNames : list string)
    (containingFile : string) : M (list (option string)) :=
  mapM (λ moduleName,
          call (CallResolveModuleName moduleName
                  (ensureUnixPath X containingFile))
               (ts_resolveModuleName X moduleName
                  (ensureUnixPath X containingFile)))
       moduleNames.

Definition resourceNameToFileName (resourceName containingFilePath : string)
  : M string :=
  let resourcePath :=
    path_resolve X (path_dirname X containingFilePath) resourceName in
  containingNode ← getNode containingFilePath;
  resourceNode ← getNode resourcePath;
  withGraph (Graph.dependsOn (url containingNode) (url resourceNode)) ;;
  mret resourcePath.

(** [/(?:html?|svg)$/.test(ext)] *)
Definition isTemplateExtension (ext : string) : bool :=
  JsString.endsWith ext "htm" || JsString.endsWith ext "html"
  || JsString.endsWith ext "svg".

(** [stylesheetProcessor.process({ filePath, content })]; the property
    access throws when no processor was given, before the arguments are
    evaluated. *)
Definition processStylesheet (filePath : string)
    (getContent : M (option string)) : M string :=
  match stylesheetProcessor config with
  | None => throw "TypeError: Cannot read properties of undefined"
  | Some process =>
      c ← getContent;
      call (CallProcess filePath c) (process filePath c)
  end.

Definition readResource (fileName : string) : M (option string) :=
  addDependee fileName ;;
  cache ← getOrCreate fileName;
  match content cache with
  | None =>
      ex ← call (CallFileExists fileName)
                (host_fileExists compilerHost fileName);
      if negb ex then throw ("Cannot read file " +:+ fileName +:+ ".")
      else
        c ← (if isTemplateExtension (path_extname X fileName)
             then call (CallReadFile fileName)
                       (host_readFile compilerHost fileName)
             else
               r ← processStylesheet fileName
                     (call (CallReadFile fileName)
                           (host_readFile compilerHost fileName));
               mret (Some r));
        setContent fileName c ;;
        setExists fileName true ;;
        mret c
  | Some c => mret (Some c)
  end.

Definition transformResource (data : string) (context : ResourceContext)
  : M (option (option string)) :=
  if JsString.truthy (resourceFile context)
     || negb (String.eqb (resourceType context) "style")
  then mret None
  else if JsString.truthy (inlineStyleLanguage config) then
    let key := sha1_hex X data in
    let fileName :=
      containingFile context +:+ "-" +:+ key +:+ "."
        +:+ default "" (inlineStyleLanguage config) in
    cache ← getOrCreate fileName;
    match content cache with
    | None =>
        c ← processStylesheet fileName (mret (Some data));
        setContent fileName (Some c) ;;
        virtualFileNode ← getNode fileName;
        containingFileNode ← getNode (containingFile context);
        withGraph (Graph.dependsOn (url virtualFileNode)
                                   (url containingFileNode))
    | Some _ => mret tt
    end ;;
    setExists fileName true ;;
    cache ← getOrCreate fileName;
    mret (Some (content cache))
  else mret None.

(** One call of a method of the host returned by [cacheCompilerHost]. *)
Inductive Op : Type :=
| OpFileExists (fileName : string)
| OpGetSourceFile (fileName : string) (languageVersion : nat)
| OpWriteFile (fileName data : string) (writeByteOrderMark : bool)
              (sourceFiles : option (list Ts.SourceFile))
| OpReadFile (fileName : string)
| OpResolveModuleNames (moduleNames : list string) (containingFile : string)
| OpResourceNameToFileName (resourceName containingFilePath : string)
| OpReadResource (fileName : string)
| OpTransformResource (data : string) (context : ResourceContext).

(** The state a computation leaves, whether it returned or threw. *)
Definition after {A} (m : M A) (s : State) : State := (m s).2.

Definition exec (op : Op) (s : State) : State :=
  match op with
  | OpFileExists f => after (fileExists f) s
  | OpGetSourceFile f v => after (getSourceFile f v) s
  | OpWriteFile f d b sfs => after (writeFile f d b sfs) s
  | OpReadFile f => after (readFile f) s
  | OpResolveModuleNames ns c => after (resolveModuleNames ns c) s
  | OpResourceNameToFileName r c => after (resourceNameToFileName r c) s
  | OpReadResource f => after (readResource f) s
  | OpTransformResource d c => after (transformResource d c) s
  end.

(** A sequence of calls made by the compiler during one generation. *)
Definition run (ops : list Op) (s : State) : State :=
  fold_left (λ s op, exec op s) ops s.

(** The file has a node in the graph and the entry point depends on
    it. *)
Definition registered (fileName : string) (s : State) : Prop :=
  let nodeUri := fileUrl X (ensureUnixPath X fileName) in
  is_Some (Graph.get nodeUri (graph s)) ∧
  (entryPointUrl config, nodeUri) ∈ edges (graph s).

End Host.

(** The graph is the same. *)
Definition sameGraph (s s' : State) : Prop := graph s' = graph s.

(** Nodes and edges are only added. *)
Definition graphGrows (s s' : State) : Prop :=
  (∀ u, is_Some (Graph.get u (graph s)) → is_Some (Graph.get u (graph s'))) ∧
  edges (graph s) ⊆ edges (graph s').

(** No call left the host and the caches are the same. *)
Definition sameCaches (s s' : State) : Prop :=
  sourcesFileCache s' = sourcesFileCache s ∧
  outputCache s' = outputCache s ∧
  trace s' = trace s.

(** The file name under which [transformResource] caches an inline
    style. *)
Definition inlineStyleFileName (X : Externals) (config : HostConfig)
    (data : string) (context : ResourceContext) : string :=
  containingFile context +:+ "-" +:+ sha1_hex X data +:+ "."
    +:+ default "" (inlineStyleLanguage config).

(** The calls that can set the existence flag of the path [p] to [true]
    whatever the flag was: the resource read of [p], and the transform of
    an inline style that is cached under [p]. *)
Definition overwritesExists (X : Externals) (config : HostConfig)
    (p : string) (op : Op) : bool :=
  match op with
  | OpReadResource f => String.eqb f p
  | OpTransformResource data context =>
      String.eqb (inlineStyleFileName X config data context) p
  | _ => false
  end.

(** The fields of the cache entry of a path that are filled stay as they
    are: the parsed source file, the content and a non-empty declaration
    file name for good; the existence flag too when [strict], and otherwise
    unless it becomes [true]. *)
Definition cacheKept (strict : bool) (p : string) (s s' : State) : Prop :=
  (∀ b, exists_ (cached s p) = Some b →
        exists_ (cached s' p) = Some b ∨
        (strict = false ∧ exists_ (cached s' p) = Some true)) ∧
  (∀ sf, sourceFile (cached s p) = Some sf →
         sourceFile (cached s' p) = Some sf) ∧
  (∀ c, content (cached s p) = Some c → content (cached s' p) = Some c) ∧
  (∀ d, declarationFileName (cached s p) = Some d → d ≠ "" →
        declarationFileName (cached s' p) = Some d).



(** The state before the first call: an empty graph and empty caches. *)
Definition initial : State := mkState Graph.empty ∅ ∅ [].

End CacheHost.

(* ===================================================================== *)
(** * Source versioning *)
(* ===================================================================== *)

Module Versioning.

(** A [ts.Program], as far as versioning goes: the source file objects it
    holds, which its own [getSourceFiles] hands out, and the number of
    times [getSourceFiles] has been wrapped. *)
Record Program : Type := mkProgram {
  sourceFiles : list Ts.SourceFile;
  wrappers : nat
}.

Section Versioning.

(** [createHash('sha256').update(text).digest('hex')] *)
Variable sha256_hex : string → string.

(** The body of the loop: the assignment to [file.version]. *)
Definition stampVersion (file : Ts.SourceFile) : Ts.SourceFile :=
  match Ts.version file with
  | None =>
      Ts.mkSourceFile (Ts.fileName file) (Ts.text file)
                      (Some (sha256_hex (Ts.text file)))
  | Some _ => file
  end.

(** [augmentProgramWithVersioning(program)]: [program.getSourceFiles] is
    replaced by a function that calls the method it replaces and stamps the
    files that come back. *)
Definition augmentProgramWithVersioning (program : Program) : Program :=
  mkProgram (sourceFiles program) (S (wrappers program)).

(** The files that [n] nested wrappers return: each calls the one below it
    and runs its loop over the result. *)
Fixpoint wrapped (n : nat) (files : list Ts.SourceFile) : list Ts.SourceFile :=
  match n with
  | O => files
  | S n' => List.map stampVersion (wrapped n' files)
  end.

(** [program.getSourceFiles()]: the files are stamped in place, so the
    program holds the stamped files afterwards. *)
Definition getSourceFiles (program : Program)
  : list Ts.SourceFile * Program :=
  let files := wrapped (wrappers program) (sourceFiles program) in
  (files, mkProgram files (wrappers program)).

(** What one pass does to one file: name and text stay, a version that is
    there stays, a missing one becomes the hash of the text. *)
Definition stamped (file file' : Ts.SourceFile) : Prop :=
  Ts.fileName file' = Ts.fileName file ∧
  Ts.text file' = Ts.text file ∧
  Ts.version file' =
    Some (match Ts.version file with
          | Some v => v
          | None => sha256_hex (Ts.text file)
          end).

End Versioning.

End Versioning.

(* ===================================================================== *)
(** * The downlevel plugin and the transform cache *)
(* ===================================================================== *)

Module Downlevel.

(** The [cacheDirectory?: false | string] argument. *)
Inductive CacheDirectory : Type :=
| CacheDirAbsent
| CacheDirFalse
| CacheDirPath (path : string).

(** [if (cacheDirectory)]: the directory when the argument is truthy. *)
Definition enabled (d : CacheDirectory) : option string :=
  match d with
  | CacheDirPath p => if String.eqb p "" then None else Some p
  | _ => None
  end.

(** [ts.ScriptTarget], [ts.ModuleKind], [ts.ModuleResolutionKind]: the
    members the plugin names. *)
Inductive ScriptTarget : Type := ES2015.
Inductive ModuleKind : Type := ESNext.
Inductive ModuleResolutionKind : Type := Classic.

Record CompilerOptions : Type := mkCompilerOptions {
  target : ScriptTarget;
  module : ModuleKind;
  allowJs : bool;
  sourceMap : bool;
  importHelpers : bool;
  downlevelIteration : bool;
  moduleResolution : ModuleResolutionKind;
  mapRoot : option string
}.

Definition COMPILER_OPTIONS : CompilerOptions :=
  mkCompilerOptions ES2015 ESNext true true true true Classic None.

(** The value [{ code, map }] that the plugin serialises for the cache. *)
Record CachePayload : Type := mkCachePayload {
  cachedCode : string;
  cachedMap : option string
}.

Section Plugin.

(** What [JSON.parse] makes of a source map text. *)
Context {Json : Type}.

(** The [map] of a rollup [TransformResult]: a text or a parsed object. *)
Inductive SourceMapInput : Type :=
| MapText (text : option string)
| MapObject (json : Json).

Record TransformResult : Type := mkTransformResult {
  code : string;
  map : SourceMapInput
}.

(** What the plugin does to the outside. *)
Inductive Event : Type :=
| LogDebug (message : string)
| CacheRead (cacheDirectory key : string)
| CacheWrite (cacheDirectory key : string) (payload : CachePayload)
| Transpile (code : string) (options : CompilerOptions).

(** The cache directories on disk, by directory and key, and the events
    so far. *)
Record State : Type := mkState {
  disk : gmap (string * string) CachePayload;
  events : list Event
}.

Definition emit (e : Event) : Eff State unit := λ s,
  (Ok tt, mkState (disk s) (events s ++ [e])).

Definition lookupDisk (cacheDirectory key : string)
  : Eff State (option CachePayload) := λ s,
  (Ok (disk s !! (cacheDirectory, key)), s).

Definition insertDisk (cacheDirectory key : string)
    (payload : CachePayload) : Eff State unit := λ s,
  (Ok tt, mkState (<[(cacheDirectory, key) := payload]> (disk s)) (events s)).

(** The digest behind [generateKey]. *)
Variable digest : string → string.
(** [path.dirname] *)
Variable path_dirname : string → string.
(** [ts.transpileModule(code, { compilerOptions })]:
    [outputText] and [sourceMapText]. *)
Variable transpileModule : string → CompilerOptions → string * option string.
(** [JSON.parse]; [None] when it throws. *)
Variable JSON_parse : string → option Json.

(** Modelled from the spec: [generateKey] (utils/cache is not part of the
    sources): "deterministic digest of the input content". *)
Definition generateKey (content : string) : string := digest content.

(** Modelled from the spec: [readCacheEntry]: "returns a previously stored
    {code, map} pair if present on disk under that key, else absent;
    never throws for a missing entry". *)
Definition readCacheEntry (cacheDirectory key : string)
  : Eff State (option CachePayload) :=
  emit (CacheRead cacheDirectory key) ;;
  lookupDisk cacheDirectory key.

(** Modelled from the spec: [saveCacheEntry]: "persists the payload under
    the key; ... last writer wins". *)
Definition saveCacheEntry (cacheDirectory key : string)
    (payload : CachePayload) : Eff State unit :=
  emit (CacheWrite cacheDirectory key payload) ;;
  insertDisk cacheDirectory key payload.

(** The part of [downlevelCodeWithTsc] after the cache lookup. *)
Definition transpileAndSave (code filePath key : string)
    (cacheDirectory : CacheDirectory) : Eff State TransformResult :=
  let compilerOptions :=
    mkCompilerOptions (target COMPILER_OPTIONS) (module COMPILER_OPTIONS)
      (allowJs COMPILER_OPTIONS) (sourceMap COMPILER_OPTIONS)
      (importHelpers COMPILER_OPTIONS) (downlevelIteration COMPILER_OPTIONS)
      (moduleResolution COMPILER_OPTIONS) (Some (path_dirname filePath)) in
  emit (Transpile code compilerOptions) ;;
  let '(outputText, sourceMapText) := transpileModule code compilerOptions in
  match enabled cacheDirectory with
  | Some dir =>
      saveCacheEntry dir key (mkCachePayload outputText sourceMapText)
  | None => mret tt
  end ;;
  match sourceMapText ≫= JSON_parse with
  | Some json => mret (mkTransformResult outputText (MapObject json))
  | None => throw "SyntaxError: JSON.parse"
  end.

Definition downlevelCodeWithTsc (code filePath : string)
    (cacheDirectory : CacheDirectory) : Eff State TransformResult :=
  emit (LogDebug ("tsc " +:+ filePath)) ;;
  let key := generateKey code in
  match enabled cacheDirectory with
  | Some dir =>
      result ← readCacheEntry dir key;
      match result with
      | Some entry =>
          mret (mkTransformResult (cachedCode entry)
                                  (MapText (cachedMap entry)))
      | None => transpileAndSave code filePath key cacheDirectory
      end
  | None => transpileAndSave code filePath key cacheDirectory
  end.

End Plugin.

Arguments SourceMapInput Json : clear implicits.
Arguments TransformResult Json : clear implicits.

End Downlevel.

(* ===================================================================== *)
(** * Searching a string *)
(* ===================================================================== *)

Module JsSearch.

(** [s.indexOf(pat)]: the index of the first occurrence of [pat] in [s]. *)
Fixpoint indexOf (s pat : string) : option nat :=
  if JsString.startsWith s pat then Some 0
  else match s with
       | EmptyString => None
       | String _ s' => S <$> indexOf s' pat
       end.

End JsSearch.

(* ===================================================================== *)
(** * How the host changes the graph *)
(* ===================================================================== *)

Module GraphGrowth.
Import Graph CacheHost.

(** Every node stays where it is, with its payload, and every edge stays. *)
Definition graphKept (s s' : State) : Prop :=
  (∀ u n, Graph.get u (graph s) = Some n → Graph.get u (graph s') = Some n) ∧
  edges (graph s) ⊆ edges (graph s').

(** The graph after [addDependee(fileName)], as a function of the graph
    before. *)
Definition withDependee (X : Externals) (config : HostConfig)
    (fileName : string) (g : BuildGraph) : BuildGraph :=
  let nodeUri := fileUrl X (ensureUnixPath X fileName) in
  match Graph.get nodeUri g with
  | Some node => Graph.dependsOn (entryPointUrl config) (url node) g
  | None =>
      Graph.dependsOn (entryPointUrl config) nodeUri
        (Graph.put (newNode nodeUri) g)
  end.

End GraphGrowth.

(* ===================================================================== *)
(** * The runner of the integration samples *)
(* ===================================================================== *)

Module IntegrationSamples.

Definition PACKAGE_FILE_CANDIDATES : list string :=
  ["ng-packagr-api.js"; "ng-package.js"; "ng-package.json"; "package.json"].

(** An element of the [args] array: a string or, as [args.push([...])]
    pushes one, an array of strings. *)
Inductive Arg : Type :=
| ArgString (s : string)
| ArgArray (l : list string).

(** What [spawnSync] returns: the exit status ([null] when the process
    did not exit by itself) and the error, if any. *)
Record SpawnResult : Type := mkSpawnResult {
  status : option nat;
  error : option string
}.

(** The file system, [path] and the child processes, outside the sources. *)
Record Process : Type := mkProcess {
  existsSync : string → bool;
  join : string → string → string;
  resolve : string → string → string;
  spawnSync : list Arg → SpawnResult
}.

Inductive Event : Type :=
| ConsoleLog (message : string)
| ConsoleError (error : option string)
| Spawn (args : list Arg).

Definition emit (e : Event) : Eff (list Event) unit :=
  λ st, (Ok tt, st ++ [e]).

Definition newline : string := String (ascii_of_nat 10) "".

(** [status === 0] *)
Definition statusIsZero (r : SpawnResult) : bool :=
  match status r with
  | Some 0 => true
  | _ => false
  end.

Section Script.
Variable P : Process.

(** [PACKAGE_FILE_CANDIDATES.find(f => existsSync(join(testPath, f)))] *)
Definition configFileOf (testPath : string) : option string :=
  List.find (λ f, existsSync P (join P testPath f)) PACKAGE_FILE_CANDIDATES.

Definition argsOf (testPath configFile : string) : list Arg :=
  if String.eqb configFile "ng-packagr-api.js"
  then [ArgArray [testPath +:+ "/" +:+ configFile]]
  else [ArgString "dist/cli/main.js"; ArgString "-p";
        ArgString (testPath +:+ "/" +:+ configFile)].

(** The body of the loop. *)
Definition processSample (testDirectory : string) : Eff (list Event) unit :=
  emit (ConsoleLog (newline +:+ "Processing integration sample: "
                    +:+ testDirectory +:+ ".")) ;;
  let testPath := resolve P "integration/samples" testDirectory in
  match configFileOf testPath with
  | None => throw ("No config found in " +:+ testPath +:+ ".")
  | Some configFile =>
      emit (ConsoleLog ("Found ng-packagr file: " +:+ configFile +:+ ".")) ;;
      let args := argsOf testPath configFile in
      emit (Spawn args) ;;
      let result := spawnSync P args in
      let exptectedToFail := JsString.startsWith testDirectory "fail-" in
      if statusIsZero result && exptectedToFail then
        throw "ERROR: Package build was expected to fail."
      else if negb (statusIsZero result) && negb exptectedToFail then
        emit (ConsoleError (error result)) ;;
        throw "ERROR: Package build failed"
      else
        emit (ConsoleLog ("Finished processing integration sample: "
                          +:+ testDirectory +:+ "."))
  end.

(** The script, for the directories that [ls('integration/samples')]
    lists. *)
Definition processSamples (testDirectories : list string)
    : Eff (list Event) unit :=
  emit (ConsoleLog ("Processing integration samples: "
                    +:+ String.concat newline testDirectories)) ;;
  forEach processSample testDirectories.

End Script.

(** The builds that a run spawned, in order. *)
Definition spawned (events : list Event) : list (list Arg) :=
  omap (λ e, match e with Spawn args => Some args | _ => None end) events.

(** The build of a sample: the arguments of its child process, when the
    sample has a configuration file. *)
Definition buildOf (P : Process) (testDirectory : string) : option (list Arg) :=
  let testPath := resolve P "integration/samples" testDirectory in
  argsOf testPath <$> configFileOf P testPath.

(** A sample behaves as its name says: it has a configuration file, and its
    build exits with status 0 exactly when the name does not start with
    [fail-]. *)
Definition asExpected (P : Process) (testDirectory : string) : bool :=
  match buildOf P testDirectory with
  | Some args =>
      Bool.eqb (statusIsZero (spawnSync P args))
               (negb (JsString.startsWith testDirectory "fail-"))
  | None => false
  end.

End IntegrationSamples.

(* ===================================================================== *)
(** * A concrete environment *)
(* ===================================================================== *)

(** Stand-ins for the library functions, right on POSIX paths that are
    normalised already (no [.], [..], doubled or trailing slash, no
    backslash); the concrete runs below take their inputs from there. *)
Module Sample.
Import CacheHost Graph.

Fixpoint hasSlash (s : string) : bool :=
  match s with
  | EmptyString => false
  | String c s' => Ascii.eqb c "/" || hasSlash s'
  end.

(** [path.basename]: what follows the last slash. *)
Fixpoint basename (s : string) : string :=
  match s with
  | EmptyString => EmptyString
  | String c s' => if hasSlash (String c s') then basename s' else String c s'
  end.

(** [path.dirname]: what precedes the last slash. *)
Fixpoint dirname (s : string) : string :=
  match s with
  | EmptyString => EmptyString
  | String c s' => if hasSlash s' then String c (dirname s') else EmptyString
  end.

Fixpoint hasDot (s : string) : bool :=
  match s with
  | EmptyString => false
  | String c s' => Ascii.eqb c "." || hasDot s'
  end.

Fixpoint lastDot (s : string) : string :=
  match s with
  | EmptyString => EmptyString
  | String c s' => if hasDot s' then lastDot s' else String c s'
  end.

(** [path.extname]: from the last dot of the base name on. *)
Definition extname (s : string) : string :=
  if hasDot (basename s) then lastDot (basename s) else "".

(** [path.join] and [path.resolve] of two normalised parts. *)
Definition join (a b : string) : string := a +:+ "/" +:+ b.

Definition X : Externals := {|
  path_join := join;
  path_basename := basename;
  path_extname := extname;
  path_dirname := dirname;
  path_resolve := join;
  ensureUnixPath := λ p, p;
  fileUrl := λ p, "file://" +:+ p;
  sha256_hex := λ d, "sha256(" +:+ d +:+ ")";
  sha1_hex := λ d, "sha1(" +:+ d +:+ ")";
  fromComment_toJSON := λ d, Some ("map(" +:+ d +:+ ")");
  ts_resolveModuleName := λ _ _, None
|}.

(** The files on disk, with their text. *)
Definition files : list (string * string) :=
  [("/lib/src/a.ts", "export const a = 1;"); ("/lib/src/a.html", "<p>a</p>")].

Fixpoint assoc (f : string) (l : list (string * string)) : option string :=
  match l with
  | [] => None
  | (k, v) :: l' => if String.eqb k f then Some v else assoc f l'
  end.

(** The compiler host over a list of files. *)
Definition hostOf (l : list (string * string)) : CompilerHost := {|
  host_fileExists := λ f, bool_decide (is_Some (assoc f l));
  host_getSourceFile := λ f _, (λ t, Ts.mkSourceFile f t None) <$> assoc f l;
  host_readFile := λ f, assoc f l
|}.

Definition host : CompilerHost := hostOf files.

(** The host after every file was deleted. *)
Definition emptyHost : CompilerHost := hostOf [].

(** A library [lib] with the entry file [public_api.ts], built into
    [/dist/lib]. *)
Definition config : HostConfig := {|
  entryPointUrl := "ng://lib";
  ngEntryPoint := mkNgEntryPoint "lib" "/dist/lib" "/lib/src/public_api.ts";
  stylesheetProcessor := Some (λ _ c, default "" c);
  inlineStyleLanguage := Some "scss"
|}.

(** The same library with the entry file [index.ts]. *)
Definition indexConfig : HostConfig := {|
  entryPointUrl := "ng://lib";
  ngEntryPoint := mkNgEntryPoint "lib" "/dist/lib" "/lib/src/index.ts";
  stylesheetProcessor := Some (λ _ c, default "" c);
  inlineStyleLanguage := Some "scss"
|}.

(** The library [lib] built into a directory that is itself called
    [lib.d.ts]. *)
Definition nestedConfig : HostConfig := {|
  entryPointUrl := "ng://lib";
  ngEntryPoint := mkNgEntryPoint "lib" "/dist/lib.d.ts" "/lib/src/public_api.ts";
  stylesheetProcessor := None;
  inlineStyleLanguage := None
|}.

End Sample.

(** Further inputs: a stylesheet on disk, a source map extractor that
    throws, and a checkout with three integration samples. *)
Module SampleCases.
Import CacheHost.

(** The files of [Sample], and a stylesheet. *)
Definition styledHost : CompilerHost :=
  Sample.hostOf (("/lib/src/a.scss", ".a { color: red }") :: Sample.files).

(** The library functions of [Sample], with a source map extractor that
    throws on every input. *)
Definition brokenMaps : Externals := {|
  path_join := path_join Sample.X;
  path_basename := path_basename Sample.X;
  path_extname := path_extname Sample.X;
  path_dirname := path_dirname Sample.X;
  path_resolve := path_resolve Sample.X;
  ensureUnixPath := ensureUnixPath Sample.X;
  fileUrl := fileUrl Sample.X;
  sha256_hex := sha256_hex Sample.X;
  sha1_hex := sha1_hex Sample.X;
  fromComment_toJSON := λ _, None;
  ts_resolveModuleName := ts_resolveModuleName Sample.X
|}.

(** An inline style of the component [a.ts]. *)
Definition inlineStyle : ResourceContext :=
  mkResourceContext None "style" "/lib/src/a.ts".

(** A style of the component [a.ts] that has a file of its own. *)
Definition fileStyle : ResourceContext :=
  mkResourceContext (Some "/lib/src/a.scss") "style" "/lib/src/a.ts".

(** A checkout in [/repo] with the samples [apf] (an [ng-package.json]),
    [fail-bad] (a [package.json]) and [later] (an [ng-packagr-api.js]),
    where every build exits with status 0. *)
Definition checkout : IntegrationSamples.Process := {|
  IntegrationSamples.existsSync := λ p,
    String.eqb p "/repo/integration/samples/apf/ng-package.json"
    || String.eqb p "/repo/integration/samples/fail-bad/package.json"
    || String.eqb p "/repo/integration/samples/later/ng-packagr-api.js";
  IntegrationSamples.join := Sample.join;
  IntegrationSamples.resolve := λ a b, "/repo/" +:+ a +:+ "/" +:+ b;
  IntegrationSamples.spawnSync := λ _,
    IntegrationSamples.mkSpawnResult (Some 0) None
|}.

(** A stand-in for [initializeTsConfig]: the default options, with the
    output directory of the entry point. *)
Definition initialize (c : Graph.TsConfig) (e : Graph.NgEntryPoint)
    (out : string) : Graph.TsConfig :=
  ("outDir", out) :: c.

(** A graph of a source file and the entry point [lib], in progress, with
    the given configuration. *)
Definition graphOf (tsConfig : option Graph.TsConfig) : Graph.BuildGraph :=
  Graph.mkBuildGraph
    [Graph.newNode "file:///lib/src/a.ts";
     Graph.mkNode "ng://lib"
       (Graph.EntryPointNode Graph.StateInProgress
          (Graph.mkEntryPointData (ngEntryPoint Sample.config) "/out"
             tsConfig))]
    ∅.

End SampleCases.

(* ===================================================================== *)
(** * The model on small inputs *)
(* ===================================================================== *)

Example endsWith_declaration :
  JsString.endsWith "/dist/lib/src/a.d.ts" ".d.ts" = true ∧
  JsString.endsWith "/dist/lib/esm/a.js" ".d.ts" = false ∧
  JsString.endsWith "ts" ".d.ts" = false.
Proof. repeat split. Qed.

Example replace_first_occurrence :
  JsString.replace "/dist/lib/lib.d.ts" "lib.d.ts" "index.d.ts"
    = "/dist/lib/index.d.ts" ∧
  JsString.replace "a-b-a" "a" "c" = "c-b-a" ∧
  JsString.replace "abc" "x" "y" = "abc".
Proof. repeat split. Qed.

Example replaceJsExtension_cases :
  JsString.replaceJsExtension "esm/a.js" = "esm/a.mjs" ∧
  JsString.replaceJsExtension "esm/a.js.map" = "esm/a.mjs.map" ∧
  JsString.replaceJsExtension "esm/a.js.js" = "esm/a.js.mjs" ∧
  JsString.replaceJsExtension "esm/a.json" = "esm/a.json" ∧
  JsString.replaceJsExtension "esm/a.tsbuildinfo" = "esm/a.tsbuildinfo".
Proof. repeat split. Qed.

Example toLowerCase_index :
  JsString.toLowerCase "/lib/src/Index.TS" = "/lib/src/index.ts".
Proof. reflexivity. Qed.

Example hasIndexEntryFile_cases :
  CacheHost.hasIndexEntryFile Sample.X Sample.indexConfig = true ∧
  CacheHost.hasIndexEntryFile Sample.X Sample.config = false.
Proof. split; reflexivity. Qed.

(** The flat module declaration of the sample library: not written when the
    entry file is [index.ts], written as [index.d.ts] otherwise. *)
Example flat_declaration_of_the_sample :
  CacheHost.writeFile Sample.X Sample.indexConfig "/dist/lib/lib.d.ts"
    "export * from './index';" false (Some []) CacheHost.initial
    = (Ok tt, CacheHost.initial) ∧
  CacheHost.trace
    (CacheHost.writeFile Sample.X Sample.config "/dist/lib/lib.d.ts"
       "export * from './public_api';" false (Some []) CacheHost.initial).2
    = [CacheHost.CallWriteFile "/dist/lib/index.d.ts"
         "export * from './public_api';" false].
Proof. split; reflexivity. Qed.

(** Reading a source file registers it with the entry point. *)
Example getSourceFile_of_the_sample :
  let r := CacheHost.getSourceFile Sample.X Sample.host Sample.config
             "/lib/src/a.ts" 99 CacheHost.initial in
  r.1 = Ok (Some (Ts.mkSourceFile "/lib/src/a.ts" "export const a = 1;" None)) ∧
  Graph.get "file:///lib/src/a.ts" (CacheHost.graph r.2)
    = Some (Graph.newNode "file:///lib/src/a.ts") ∧
  ("ng://lib", "file:///lib/src/a.ts") ∈ Graph.edges (CacheHost.graph r.2) ∧
  CacheHost.trace r.2 = [CacheHost.CallGetSourceFile "/lib/src/a.ts" 99].
Proof.
  cbv zeta. split; [reflexivity|]. split; [reflexivity|].
  split; [|reflexivity]. vm_compute. set_solver.
Qed.

Example getSourceFiles_stamps :
  (Versioning.getSourceFiles (λ t, "sha256(" +:+ t +:+ ")")
     (Versioning.augmentProgramWithVersioning
        (Versioning.mkProgram
           [Ts.mkSourceFile "a.ts" "x" None;
            Ts.mkSourceFile "b.ts" "y" (Some "v1")] 0))).1
  = [Ts.mkSourceFile "a.ts" "x" (Some "sha256(x)");
     Ts.mkSourceFile "b.ts" "y" (Some "v1")].
Proof. reflexivity. Qed.

Example stampVersion_cases :
  Versioning.stampVersion (λ t, "sha256(" +:+ t +:+ ")")
    (Ts.mkSourceFile "a.ts" "x" None)
    = Ts.mkSourceFile "a.ts" "x" (Some "sha256(x)") ∧
  Versioning.stampVersion (λ t, "sha256(" +:+ t +:+ ")")
    (Ts.mkSourceFile "a.ts" "x" (Some "v1"))
    = Ts.mkSourceFile "a.ts" "x" (Some "v1").
Proof. split; reflexivity. Qed.

(* ===================================================================== *)
(** * Properties of the init-tsconfig transform *)
(* ===================================================================== *)

Section InitTsConfigFacts.
Import Graph InitTsConfig.

Variable initializeTsConfig : TsConfig → NgEntryPoint → string → TsConfig.

Lemma setTsConfig_entry_point c u st d :
  setTsConfig c (mkNode u (EntryPointNode st d)) =
  mkNode u (EntryPointNode st
              (mkEntryPointData (entryPoint d) (outDir d) (Some c))).
Proof. reflexivity. Qed.

Lemma isEntryPointInProgress_payload n :
  isEntryPointInProgress n → ∃ d, payload n = EntryPointNode StateInProgress d.
Proof.
  unfold isEntryPointInProgress.
  destruct (payload n) as [|[] d]; try contradiction. eauto.
Qed.

(** C9. The transform takes the first node of the graph that is an entry
    point in progress, assigns the [tsConfig] of its data and nothing else
    (URL, state, [entryPoint] and [outDir] are kept), leaves every other
    node and every edge as they were, and returns the graph; it throws
    only when the graph has no entry point in progress. *)
Theorem initTsConfig_assigns_only_tsConfig defaultTsConfig graph :
  match initTsConfigTransformFactory initializeTsConfig defaultTsConfig graph with
  | Ok graph' =>
      ∃ i u d,
        find isEntryPointInProgress graph
          = Some (i, mkNode u (EntryPointNode StateInProgress d)) ∧
        store graph !! i = Some (mkNode u (EntryPointNode StateInProgress d)) ∧
        (∀ j n, j < i → store graph !! j = Some n → ¬ isEntryPointInProgress n) ∧
        store graph' !! i =
          Some (mkNode u (EntryPointNode StateInProgress
                  (mkEntryPointData (entryPoint d) (outDir d)
                     (Some (initializeTsConfig defaultTsConfig
                              (entryPoint d) (outDir d)))))) ∧
        (∀ j, j ≠ i → store graph' !! j = store graph !! j) ∧
        length (store graph') = length (store graph) ∧
        edges graph' = edges graph
  | Throw _ =>
      Forall (λ n, ¬ isEntryPointInProgress n) (store graph)
  end.
Proof.
  unfold initTsConfigTransformFactory, find.
  destruct (list_find isEntryPointInProgress (store graph)) as [[i ep]|] eqn:Hfind.
  - pose proof Hfind as Hfound.
    apply list_find_Some in Hfind as (Hi & Hp & Hfirst).
    destruct (isEntryPointInProgress_payload _ Hp) as [d Hd].
    rewrite Hd. destruct ep as [u pl]. simpl in Hd. subst pl.
    exists i, u, d. simpl. repeat split.
    + exact Hi.
    + intros j n Hlt Hj. exact (Hfirst j n Hj Hlt).
    + rewrite list_lookup_insert_eq; [reflexivity|].
      eapply lookup_lt_Some. exact Hi.
    + intros j Hne. rewrite list_lookup_insert_ne; [reflexivity|congruence].
    + apply length_insert.
  - apply list_find_None in Hfind. exact Hfind.
Qed.

End InitTsConfigFacts.

(* ===================================================================== *)
(** * Properties of source versioning *)
(* ===================================================================== *)

Section VersioningFacts.
Import Versioning.

Variable sha256_hex : string → string.

Lemma stampVersion_idempotent file :
  stampVersion sha256_hex (stampVersion sha256_hex file) =
  stampVersion sha256_hex file.
Proof.
  unfold stampVersion. destruct (Ts.version file) eqn:Hv; simpl.
  - now rewrite Hv.
  - reflexivity.
Qed.

Lemma stampVersion_keeps file v :
  Ts.version file = Some v → stampVersion sha256_hex file = file.
Proof. unfold stampVersion. now intros ->. Qed.

Lemma stampVersion_stamped file :
  stamped sha256_hex file (stampVersion sha256_hex file).
Proof.
  unfold stamped, stampVersion.
  destruct (Ts.version file) eqn:Hv; simpl; auto.
Qed.

Lemma map_stampVersion_idempotent files :
  List.map (stampVersion sha256_hex) (List.map (stampVersion sha256_hex) files)
  = List.map (stampVersion sha256_hex) files.
Proof.
  induction files as [|f files IH]; simpl; [reflexivity|].
  now rewrite stampVersion_idempotent, IH.
Qed.

Lemma map_stampVersion_stamped files :
  Forall2 (stamped sha256_hex) files (List.map (stampVersion sha256_hex) files).
Proof.
  induction files as [|f files IH]; simpl; constructor;
    [apply stampVersion_stamped|exact IH].
Qed.

(** However often the method was wrapped, at least once: the files come
    back as one loop leaves them. *)
Lemma wrapped_S n files :
  wrapped sha256_hex (S n) files = List.map (stampVersion sha256_hex) files.
Proof.
  induction n as [|n IH]; [reflexivity|].
  change (wrapped sha256_hex (S (S n)) files)
    with (List.map (stampVersion sha256_hex) (wrapped sha256_hex (S n) files)).
  rewrite IH. apply map_stampVersion_idempotent.
Qed.

(** C4. After [augmentProgramWithVersioning], [getSourceFiles] stamps a file
    with the hash of its text exactly when the file has no version and
    keeps every version that is there; a second pass over the files returns
    the same files with the same versions and changes nothing. *)
Theorem versioning_pass_idempotent program :
  let versioned := augmentProgramWithVersioning program in
  let pass1 := getSourceFiles sha256_hex versioned in
  let pass2 := getSourceFiles sha256_hex pass1.2 in
  Forall2 (stamped sha256_hex) (sourceFiles program) pass1.1 ∧
  sourceFiles pass1.2 = pass1.1 ∧
  pass2.1 = pass1.1 ∧
  pass2.2 = pass1.2.
Proof.
  destruct program as [files n]. cbv zeta.
  unfold getSourceFiles, augmentProgramWithVersioning.
  cbv beta iota zeta delta [fst snd sourceFiles wrappers]. rewrite !wrapped_S.
  rewrite map_stampVersion_idempotent.
  repeat split. apply map_stampVersion_stamped.
Qed.

End VersioningFacts.

(* ===================================================================== *)
(** * Properties of the downlevel plugin and the transform cache *)
(* ===================================================================== *)

Section DownlevelFacts.
Import Downlevel.

Context {Json : Type}.
Variable digest : string → string.
Variable path_dirname : string → string.
Variable transpileModule : string → CompilerOptions → string * option string.
Variable JSON_parse : string → option Json.

Lemma saveCacheEntry_run dir key payload st :
  saveCacheEntry dir key payload st =
  (Ok tt, mkState (<[(dir, key) := payload]> (disk st))
                  (events st ++ [CacheWrite dir key payload])).
Proof. reflexivity. Qed.

Lemma readCacheEntry_run dir key st :
  readCacheEntry dir key st =
  (Ok (disk st !! (dir, key)),
   mkState (disk st) (events st ++ [CacheRead dir key])).
Proof. reflexivity. Qed.

(** Saves under other keys or in other directories do not disturb an
    entry. *)
Lemma saves_elsewhere_keep dir key (others : list (string * string * CachePayload)) st :
  Forall (λ o, (o.1.1, o.1.2) ≠ (dir, key)) others →
  disk (forEach (λ o, saveCacheEntry o.1.1 o.1.2 o.2) others st).2
    !! (dir, key) = disk st !! (dir, key).
Proof.
  intros Hothers. revert st.
  induction Hothers as [|[[d k] p] others Hne _ IH]; intros st; simpl.
  - reflexivity.
  - unfold mbind, Eff_bind. rewrite saveCacheEntry_run. simpl in *.
    rewrite IH. simpl. now rewrite lookup_insert_ne.
Qed.

(** C5. [generateKey] gives one key for one content, in whatever state the
    cache is; and a read under the key of a content returns the payload
    that was saved under the key of that content, also when entries were
    saved under other keys or in other directories in between. *)
Theorem cache_key_stable_and_round_trip dir c payload st :
  let key := generateKey digest c in
  let saved := (saveCacheEntry dir key payload st).2 in
  generateKey digest c = key ∧
  (saveCacheEntry dir key payload st).1 = Ok tt ∧
  (readCacheEntry dir (generateKey digest c) saved).1 = Ok (Some payload) ∧
  (∀ others : list (string * string * CachePayload),
     Forall (λ o, (o.1.1, o.1.2) ≠ (dir, key)) others →
     (readCacheEntry dir (generateKey digest c)
        (forEach (λ o, saveCacheEntry o.1.1 o.1.2 o.2) others saved).2).1
     = Ok (Some payload)).
Proof.
  cbv zeta. rewrite !saveCacheEntry_run. cbn [fst snd].
  split; [reflexivity|]. split; [reflexivity|]. split.
  - rewrite readCacheEntry_run. cbn [fst disk]. now rewrite lookup_insert_eq.
  - intros others Hothers. rewrite readCacheEntry_run. cbn [fst].
    rewrite (saves_elsewhere_keep _ _ _ _ Hothers). cbn [disk].
    now rewrite lookup_insert_eq.
Qed.

(** C7. Without a cache directory ([undefined], [false] or the empty
    string) the plugin logs, transpiles, and returns the transpiled code
    with the parsed source map; the cache is neither read nor written. *)
Theorem downlevel_without_cache code filePath cacheDirectory st :
  enabled cacheDirectory = None →
  let options :=
    mkCompilerOptions ES2015 ESNext true true true true Classic
                      (Some (path_dirname filePath)) in
  downlevelCodeWithTsc digest path_dirname transpileModule JSON_parse
    code filePath cacheDirectory st =
  (match (transpileModule code options).2 ≫= JSON_parse with
   | Some json =>
       Ok (mkTransformResult (transpileModule code options).1 (MapObject json))
   | None => Throw "SyntaxError: JSON.parse"
   end,
   mkState (disk st)
           (events st ++ [LogDebug ("tsc " +:+ filePath); Transpile code options])).
Proof.
  intros Hoff. simpl.
  unfold downlevelCodeWithTsc, transpileAndSave. rewrite Hoff.
  unfold mbind, Eff_bind, emit, mret, Eff_ret, throw. simpl.
  destruct (transpileModule code _) as [outputText sourceMapText]. simpl.
  rewrite <- app_assoc. simpl.
  destruct sourceMapText as [t|]; simpl; [destruct (JSON_parse t)|]; reflexivity.
Qed.

(** With a cache directory, a second run on the same code is answered from
    the cache: nothing is transpiled, and the source map comes back as the
    text that was saved. *)
Lemma downlevel_second_run_hits_cache code filePath filePath' dir st r st1 :
  dir ≠ "" →
  downlevelCodeWithTsc digest path_dirname transpileModule JSON_parse
    code filePath (CacheDirPath dir) st = (Ok r, st1) →
  ∃ entry,
    disk st1 !! (dir, generateKey digest code) = Some entry ∧
    cachedCode entry = Downlevel.code r ∧
    downlevelCodeWithTsc digest path_dirname transpileModule JSON_parse
      code filePath' (CacheDirPath dir) st1 =
    (Ok (mkTransformResult (cachedCode entry) (MapText (cachedMap entry))),
     mkState (disk st1)
       (events st1 ++ [LogDebug ("tsc " +:+ filePath');
                       CacheRead dir (generateKey digest code)])).
Proof.
  intros Hdir. unfold downlevelCodeWithTsc at 1. simpl.
  assert (Hon : (if String.eqb dir "" then None else Some dir) = Some dir).
  { destruct (String.eqb_spec dir ""); congruence. }
  rewrite Hon.
  unfold mbind, Eff_bind. simpl.
  destruct (disk st !! (dir, generateKey digest code)) as [entry|] eqn:Hget.
  - intros [= <- <-]. exists entry. simpl. repeat split; [exact Hget|].
    unfold downlevelCodeWithTsc. simpl. rewrite Hon.
    unfold mbind, Eff_bind. simpl. rewrite Hget. simpl.
    now rewrite <- app_assoc.
  - unfold transpileAndSave. simpl. rewrite Hon.
    unfold mbind, Eff_bind. simpl.
    destruct (transpileModule code _) as [outputText sourceMapText]. simpl.
    destruct sourceMapText as [t|]; simpl;
      [destruct (JSON_parse t)|]; unfold throw, mret, Eff_ret;
      try (intros [=]; fail).
    intros [= <- <-]. exists (mkCachePayload outputText (Some t)). simpl.
    rewrite lookup_insert_eq. repeat split.
    unfold downlevelCodeWithTsc. simpl. rewrite Hon.
    unfold mbind, Eff_bind. simpl. rewrite lookup_insert_eq. simpl.
    now rewrite <- !app_assoc.
Qed.

End DownlevelFacts.

(* ===================================================================== *)
(** * Properties of the caching compiler host *)
(* ===================================================================== *)

Section KeepsFacts.
Context {S : Type} (R : S → S → Prop) `{!PreOrder R}.

Lemma keeps_ret {A} (a : A) : keeps R (mret a : Eff S A).
Proof. intros s. simpl. reflexivity. Qed.

Lemma keeps_throw {A} e : keeps R (throw e : Eff S A).
Proof. intros s. simpl. reflexivity. Qed.

Lemma keeps_bind {A B} (m : Eff S A) (f : A → Eff S B) :
  keeps R m → (∀ a, keeps R (f a)) → keeps R (m ≫= f).
Proof.
  intros Hm Hf s. unfold mbind, Eff_bind.
  specialize (Hm s). destruct (m s) as [[a|e] s1]; simpl in *.
  - etransitivity; [exact Hm|apply Hf].
  - exact Hm.
Qed.

Lemma keeps_forEach {A} (f : A → Eff S unit) l :
  (∀ a, keeps R (f a)) → keeps R (forEach f l).
Proof.
  intros Hf. induction l as [|a l IH]; simpl.
  - apply keeps_ret.
  - apply keeps_bind; auto.
Qed.

Lemma keeps_mapM {A B} (f : A → Eff S B) l :
  (∀ a, keeps R (f a)) → keeps R (mapM f l).
Proof.
  intros Hf. induction l as [|a l IH]; simpl.
  - apply keeps_ret.
  - apply keeps_bind; [auto|]. intros b.
    apply keeps_bind; [auto|]. intros bs. apply keeps_ret.
Qed.

End KeepsFacts.

(** Splits a goal [keeps R m] along the structure of [m]; what is left are
    the primitive steps. *)
Ltac keeps_step :=
  lazymatch goal with
  | |- keeps _ (@mret _ _ _ _) => refine (keeps_ret _ _)
  | |- keeps _ (@throw _ _ _) => refine (keeps_throw _ _)
  | |- keeps _ (@mbind _ _ _ _ _ _) => refine (keeps_bind _ _ _ _ _); [|intros ?]
  | |- keeps _ (@forEach _ _ _ _) => refine (keeps_forEach _ _ _ _); intros ?
  | |- keeps _ (@mapM _ _ _ _ _) => refine (keeps_mapM _ _ _ _); intros ?
  | |- keeps _ (match ?x with _ => _ end) => destruct x eqn:?
  | |- keeps _ (let _ := _ in _) => cbv zeta
  end.

Section GraphFacts.
Import Graph.

Lemma lookupNode_url u l n : lookupNode u l = Some n → url n = u.
Proof.
  induction l as [|m l IH]; simpl; [discriminate|].
  destruct (String.eqb_spec (url m) u) as [Heq|Hne].
  - now intros [= <-].
  - exact IH.
Qed.

Lemma lookupNode_putNode_eq n l : lookupNode (url n) (putNode n l) = Some n.
Proof.
  induction l as [|m l IH]; simpl.
  - now rewrite String.eqb_refl.
  - destruct (String.eqb_spec (url m) (url n)) as [Heq|Hne]; simpl.
    + now rewrite String.eqb_refl.
    + destruct (String.eqb_spec (url m) (url n)); [contradiction|exact IH].
Qed.

Lemma lookupNode_putNode_ne n u l :
  url n ≠ u → lookupNode u (putNode n l) = lookupNode u l.
Proof.
  intros Hne. induction l as [|m l IH]; simpl.
  - destruct (String.eqb_spec (url n) u); [contradiction|reflexivity].
  - destruct (String.eqb_spec (url m) (url n)) as [Heq|Hmn]; simpl.
    + destruct (String.eqb_spec (url n) u); [contradiction|].
      destruct (String.eqb_spec (url m) u); [congruence|reflexivity].
    + destruct (String.eqb_spec (url m) u); [reflexivity|exact IH].
Qed.

(** [put] keeps every node that was there, under its URL. *)
Lemma get_put_is_Some n u g :
  is_Some (get u g) → is_Some (get u (put n g)).
Proof.
  unfold get, put. simpl. intros Hu.
  destruct (decide (url n = u)) as [<-|Hne].
  - rewrite lookupNode_putNode_eq. eauto.
  - now rewrite lookupNode_putNode_ne.
Qed.

End GraphFacts.

(** ** Relations between the state before and after a step *)

Section RelationFacts.
Import Graph CacheHost.

#[export] Instance sameGraph_preorder : PreOrder sameGraph.
Proof. split; unfold sameGraph; [intros ?|intros ???]; congruence. Qed.

#[export] Instance graphGrows_preorder : PreOrder graphGrows.
Proof.
  split.
  - intros s. split; [auto|set_solver].
  - intros s1 s2 s3 [Hn1 He1] [Hn2 He2]. split; [auto|set_solver].
Qed.

#[export] Instance sameCaches_preorder : PreOrder sameCaches.
Proof.
  split.
  - intros s. repeat split.
  - intros s1 s2 s3 (? & ? & ?) (? & ? & ?). repeat split; congruence.
Qed.

End RelationFacts.

Create HintDb keeps.

(** Splits [keeps R m] for a method body [m] down to its primitive steps and
    closes these from the hint base. *)
Ltac keeps_auto :=
  unfold CacheHost.setExists, CacheHost.setSourceFile, CacheHost.setContent,
    CacheHost.setDeclarationFileName, CacheHost.hostWriteFile,
    CacheHost.extractSourceMap, CacheHost.processStylesheet,
    CacheHost.writeDeclaration, CacheHost.recordDeclarations;
  repeat keeps_step; eauto with keeps.

Section HostFacts.
Import Graph CacheHost.

Variable X : Externals.
Variable compilerHost : CompilerHost.
Variable config : HostConfig.

Lemma sameGraph_grows s s' : sameGraph s s' → graphGrows s s'.
Proof. unfold sameGraph, graphGrows. intros ->. split; [auto|set_solver]. Qed.

(** ** The primitive steps *)

Lemma getOrCreate_sameGraph f : keeps sameGraph (getOrCreate f).
Proof. intros s. unfold getOrCreate. now destruct (_ !! _). Qed.

Lemma call_sameGraph {A} c (a : A) : keeps sameGraph (call c a).
Proof. now intros s. Qed.

Lemma withFileCache_sameGraph f : keeps sameGraph (withFileCache f).
Proof. now intros s. Qed.

Lemma withOutputCache_sameGraph f : keeps sameGraph (withOutputCache f).
Proof. now intros s. Qed.

Lemma outputCacheGet_sameGraph f : keeps sameGraph (outputCacheGet f).
Proof. now intros s. Qed.

Lemma getNode_run f s :
  let u := fileUrl X (ensureUnixPath X f) in
  ∃ node, (getNode X f s).1 = Ok node ∧ url node = u ∧
          get u (graph (getNode X f s).2) = Some node ∧
          graphGrows s (getNode X f s).2 ∧ sameCaches s (getNode X f s).2.
Proof.
  simpl. unfold getNode.
  destruct (get _ (graph s)) as [node|] eqn:Hget.
  - exists node. simpl. repeat split; auto.
    eapply lookupNode_url. exact Hget.
  - eexists. simpl. repeat split.
    + unfold get, put. simpl.
      exact (lookupNode_putNode_eq (newNode _) _).
    + intros u. apply get_put_is_Some.
    + set_solver.
Qed.

Lemma getNode_grows f : keeps graphGrows (getNode X f).
Proof. intros s. destruct (getNode_run f s) as (? & ? & ? & ? & ? & ?). auto. Qed.

Lemma withGraph_dependsOn_grows a b :
  keeps graphGrows (withGraph (dependsOn a b)).
Proof. intros s. split; simpl; [auto|set_solver]. Qed.

(** [addDependee] returns, leaves the node of the file in the graph with an
    edge from the entry point, and touches nothing but the graph. *)
Lemma addDependee_run f s :
  (addDependee X config f s).1 = Ok tt ∧
  registered X config f (addDependee X config f s).2 ∧
  graphGrows s (addDependee X config f s).2 ∧
  sameCaches s (addDependee X config f s).2.
Proof.
  unfold addDependee, mbind, Eff_bind.
  destruct (getNode_run f s) as (node & Hok & Hurl & Hget & Hgrow & Hsame).
  destruct (getNode X f s) as [r s1]. simpl in *. subst r. simpl.
  repeat split.
  - simpl. unfold get in *. simpl. rewrite Hget. eauto.
  - simpl. rewrite Hurl. set_solver.
  - destruct Hgrow as [Hn _]. simpl. exact Hn.
  - destruct Hgrow as [_ He]. simpl. set_solver.
  - apply Hsame.
  - apply Hsame.
  - apply Hsame.
Qed.

Lemma addDependee_grows f : keeps graphGrows (addDependee X config f).
Proof. intros s. apply addDependee_run. Qed.

Lemma registered_grows f s s' :
  graphGrows s s' → registered X config f s → registered X config f s'.
Proof.
  unfold registered. intros [Hn He] [Hnode Hedge]. split; [auto|set_solver].
Qed.

Lemma updateEntry_sameGraph f g : keeps sameGraph (updateEntry f g).
Proof. now intros s. Qed.

#[local] Hint Resolve getOrCreate_sameGraph call_sameGraph
  withFileCache_sameGraph withOutputCache_sameGraph updateEntry_sameGraph
  outputCacheGet_sameGraph : keeps.

Lemma fileExists_sameGraph f : keeps sameGraph (fileExists compilerHost f).
Proof. unfold fileExists. keeps_auto. Qed.

Lemma resolveModuleNames_sameGraph names c :
  keeps sameGraph (resolveModuleNames X names c).
Proof. unfold resolveModuleNames. keeps_auto. Qed.

(** A method that starts with [addDependee] leaves the file registered,
    whatever it does afterwards, as long as the graph only grows. *)
Lemma registered_after_addDependee {A} f (rest : M A) s :
  keeps graphGrows rest →
  registered X config f (after (addDependee X config f ;; rest) s).
Proof.
  intros Hrest. unfold after, mbind, Eff_bind.
  destruct (addDependee_run f s) as (Hok & Hreg & _ & _).
  destruct (addDependee X config f s) as [r s1]. simpl in *. subst r.
  eapply registered_grows; [apply Hrest|exact Hreg].
Qed.

Lemma keeps_sameGraph_grows {A} (m : M A) : keeps sameGraph m → keeps graphGrows m.
Proof. intros Hm s. apply sameGraph_grows, Hm. Qed.

Lemma getSourceFile_registered f v s :
  registered X config f (after (getSourceFile X compilerHost config f v) s).
Proof.
  unfold getSourceFile. apply registered_after_addDependee.
  apply keeps_sameGraph_grows. keeps_auto.
Qed.

Lemma readFile_registered f s :
  registered X config f (after (readFile X compilerHost config f) s).
Proof.
  unfold readFile. apply registered_after_addDependee.
  apply keeps_sameGraph_grows. keeps_auto.
Qed.

Lemma readResource_registered f s :
  registered X config f (after (readResource X compilerHost config f) s).
Proof.
  unfold readResource. apply registered_after_addDependee.
  apply keeps_sameGraph_grows. keeps_auto.
Qed.

(** C3, as the code has it. Parsing a source file, reading a file and
    reading a resource create or fetch the node of the file and make the
    entry point depend on it, also when the read throws; the existence
    check and the resolution of module names leave the graph as it is. *)
Theorem reads_register_the_file f v names s :
  registered X config f (after (getSourceFile X compilerHost config f v) s) ∧
  registered X config f (after (readFile X compilerHost config f) s) ∧
  registered X config f (after (readResource X compilerHost config f) s) ∧
  graph (after (fileExists compilerHost f) s) = graph s ∧
  graph (after (resolveModuleNames X names f) s) = graph s.
Proof.
  split; [apply getSourceFile_registered|].
  split; [apply readFile_registered|].
  split; [apply readResource_registered|].
  split; [apply fileExists_sameGraph|apply resolveModuleNames_sameGraph].
Qed.

End HostFacts.

(** C3 fails as stated: on the empty graph the existence check of a file
    and the resolution of a module name from it return, and the graph has
    no node for the file and no edge afterwards. *)
Lemma existence_check_registers_nothing :
  let s1 := CacheHost.after
              (CacheHost.fileExists Sample.host "/lib/src/a.ts")
              CacheHost.initial in
  let s2 := CacheHost.after
              (CacheHost.resolveModuleNames Sample.X ["./b"] "/lib/src/a.ts")
              CacheHost.initial in
  (CacheHost.fileExists Sample.host "/lib/src/a.ts" CacheHost.initial).1
    = Ok true ∧
  ¬ CacheHost.registered Sample.X Sample.config "/lib/src/a.ts" s1 ∧
  (CacheHost.resolveModuleNames Sample.X ["./b"] "/lib/src/a.ts"
     CacheHost.initial).1 = Ok [None] ∧
  ¬ CacheHost.registered Sample.X Sample.config "/lib/src/a.ts" s2.
Proof.
  cbv zeta. split; [reflexivity|]. split.
  - intros [[n Hn] _]. vm_compute in Hn. discriminate.
  - split; [reflexivity|].
    intros [[n Hn] _]. vm_compute in Hn. discriminate.
Qed.

Section WriteFileFacts.
Import Graph CacheHost.

Variable X : Externals.
Variable config : HostConfig.


(** What [writeFile] does for an output that is no declaration file: the
    output name, whether the source map is extracted, and the state left. *)
Lemma writeFile_output_run fileName data bom sources s :
  JsString.endsWith fileName ".d.ts" = false →
  let out := JsString.replaceJsExtension fileName in
  let version := sha256_hex X data in
  let hit := match outputCache s !! out with
             | Some cachedData =>
                 if String.eqb (OutputCache.version cachedData) version
                 then Some (OutputCache.map cachedData) else None
             | None => None
             end in
  writeFile X config fileName data bom sources s =
  if JsString.endsWith out ".mjs" then
    match hit with
    | Some map =>
        (Ok tt,
         mkState (graph s) (sourcesFileCache s)
           (<[out := OutputCache.mkEntry data version map]> (outputCache s))
           (trace s ++ [CallWriteFile out data bom]))
    | None =>
        match fromComment_toJSON X data with
        | Some json =>
            (Ok tt,
             mkState (graph s) (sourcesFileCache s)
               (<[out := OutputCache.mkEntry data version (Some json)]>
                  (outputCache s))
               (trace s ++ [CallFromComment data; CallWriteFile out data bom]))
        | None =>
            (Throw "Error: cannot parse the source map comment",
             mkState (graph s) (sourcesFileCache s) (outputCache s)
               (trace s ++ [CallFromComment data]))
        end
    end
  else
    (Ok tt,
     mkState (graph s) (sourcesFileCache s)
       (<[out := OutputCache.mkEntry data version None]> (outputCache s))
       (trace s ++ [CallWriteFile out data bom])).
Proof.
  intros Hout. cbv zeta. unfold writeFile. rewrite Hout.
  destruct (JsString.endsWith (JsString.replaceJsExtension fileName) ".mjs");
    unfold mbind, Eff_bind, mret, Eff_ret, extractSourceMap, throw,
      withOutputCache, hostWriteFile, call, outputCacheGet; simpl;
    [|reflexivity].
  destruct (outputCache s !! JsString.replaceJsExtension fileName) as [cd|];
    simpl.
  - destruct (String.eqb (OutputCache.version cd) (sha256_hex X data));
      [reflexivity|].
    unfold mbind, Eff_bind. simpl.
    destruct (fromComment_toJSON X data); simpl; [|reflexivity].
    now rewrite <- app_assoc.
  - unfold mbind, Eff_bind. simpl.
    destruct (fromComment_toJSON X data); simpl; [|reflexivity].
    now rewrite <- app_assoc.
Qed.


End WriteFileFacts.

(** ** Running a method step by step *)

Section StepFacts.
Import Graph CacheHost.

Variable X : Externals.
Variable compilerHost : CompilerHost.
Variable config : HostConfig.

Lemma bind_ok {S A B} (m : Eff S A) (k : A → Eff S B) s a s1 :
  m s = (Ok a, s1) → (m ≫= k) s = k a s1.
Proof. unfold mbind, Eff_bind. now intros ->. Qed.

Lemma bind_throw {S A B} (m : Eff S A) (k : A → Eff S B) s e s1 :
  m s = (Throw e, s1) → (m ≫= k) s = (Throw e, s1).
Proof. unfold mbind, Eff_bind. now intros ->. Qed.

Lemma mret_run {S A} (a : A) (s : S) : (mret a : Eff S A) s = (Ok a, s).
Proof. reflexivity. Qed.

Lemma getOrCreate_run f s :
  getOrCreate f s = (Ok (cached s f), after (getOrCreate f) s).
Proof.
  unfold after, getOrCreate, cached. now destruct (sourcesFileCache s !! f).
Qed.

Lemma call_run {A} c (a : A) s : call c a s = (Ok a, after (call c a) s).
Proof. reflexivity. Qed.

Lemma updateEntry_run f g s :
  updateEntry f g s = (Ok tt, after (updateEntry f g) s).
Proof. reflexivity. Qed.

Lemma withGraph_run g s : withGraph g s = (Ok tt, after (withGraph g) s).
Proof. reflexivity. Qed.

Lemma addDependee_ok f s :
  addDependee X config f s = (Ok tt, after (addDependee X config f) s).
Proof.
  unfold after. destruct (addDependee_run X config f s) as [Hok _].
  destruct (addDependee X config f s) as [r s1]. simpl in *. now subst.
Qed.

(** What the steps leave of the state. *)

Lemma cached_getOrCreate f s p : cached (after (getOrCreate f) s) p = cached s p.
Proof.
  unfold after, getOrCreate, cached.
  destruct (sourcesFileCache s !! f) eqn:Hf; simpl; [reflexivity|].
  destruct (decide (f = p)) as [->|Hne].
  - now rewrite lookup_insert_eq, Hf.
  - now rewrite lookup_insert_ne.
Qed.

Lemma getOrCreate_present f s :
  is_Some (sourcesFileCache s !! f) → after (getOrCreate f) s = s.
Proof. unfold after, getOrCreate. now intros [e ->]. Qed.

Lemma graph_getOrCreate f s : graph (after (getOrCreate f) s) = graph s.
Proof. apply getOrCreate_sameGraph. Qed.

Lemma outputCache_getOrCreate f s :
  outputCache (after (getOrCreate f) s) = outputCache s.
Proof. unfold after, getOrCreate. now destruct (_ !! _). Qed.

Lemma trace_getOrCreate f s : trace (after (getOrCreate f) s) = trace s.
Proof. unfold after, getOrCreate. now destruct (_ !! _). Qed.

Lemma cached_call {A} c (a : A) s p : cached (after (call c a) s) p = cached s p.
Proof. reflexivity. Qed.

Lemma trace_call {A} c (a : A) s : trace (after (call c a) s) = trace s ++ [c].
Proof. reflexivity. Qed.

Lemma outputCache_call {A} c (a : A) s :
  outputCache (after (call c a) s) = outputCache s.
Proof. reflexivity. Qed.

Lemma cached_updateEntry f g s p :
  cached (after (updateEntry f g) s) p =
  if decide (p = f) then g (cached s f) else cached s p.
Proof.
  unfold after, updateEntry, withFileCache, cached. simpl.
  destruct (decide (p = f)) as [->|Hne].
  - now rewrite lookup_insert_eq.
  - now rewrite lookup_insert_ne.
Qed.

Lemma trace_updateEntry f g s : trace (after (updateEntry f g) s) = trace s.
Proof. reflexivity. Qed.

Lemma outputCache_updateEntry f g s :
  outputCache (after (updateEntry f g) s) = outputCache s.
Proof. reflexivity. Qed.

Lemma cached_withGraph g s p : cached (after (withGraph g) s) p = cached s p.
Proof. reflexivity. Qed.

Lemma trace_withGraph g s : trace (after (withGraph g) s) = trace s.
Proof. reflexivity. Qed.

Lemma cached_withOutputCache g s p :
  cached (after (withOutputCache g) s) p = cached s p.
Proof. reflexivity. Qed.

Lemma sameCaches_cached s s' p : sameCaches s s' → cached s' p = cached s p.
Proof. unfold cached. now intros [-> _]. Qed.

Lemma getNode_sameCaches f s : sameCaches s (after (getNode X f) s).
Proof. destruct (getNode_run X f s) as (? & ? & ? & ? & ? & ?). auto. Qed.

Lemma addDependee_sameCaches f s : sameCaches s (after (addDependee X config f) s).
Proof. apply addDependee_run. Qed.

Lemma cached_addDependee f s p :
  cached (after (addDependee X config f) s) p = cached s p.
Proof. apply sameCaches_cached, addDependee_sameCaches. Qed.

Lemma trace_addDependee f s : trace (after (addDependee X config f) s) = trace s.
Proof. apply addDependee_sameCaches. Qed.

Lemma outputCache_addDependee f s :
  outputCache (after (addDependee X config f) s) = outputCache s.
Proof. apply addDependee_sameCaches. Qed.

Lemma cached_getNode f s p : cached (after (getNode X f) s) p = cached s p.
Proof. apply sameCaches_cached, getNode_sameCaches. Qed.

Lemma trace_getNode f s : trace (after (getNode X f) s) = trace s.
Proof. apply getNode_sameCaches. Qed.

Lemma getNode_returns f s :
  ∃ node, getNode X f s = (Ok node, after (getNode X f) s).
Proof.
  destruct (getNode_run X f s) as (node & Hok & _). exists node.
  unfold after. destruct (getNode X f s) as [r s1]. simpl in *. now subst.
Qed.

End StepFacts.

Section CacheKeptFacts.
Import Graph CacheHost.

Variable X : Externals.
Variable compilerHost : CompilerHost.
Variable config : HostConfig.

#[export] Instance cacheKept_preorder strict p : PreOrder (cacheKept strict p).
Proof.
  split.
  - intros s. unfold cacheKept. repeat split; auto.
  - intros s1 s2 s3 (He1 & Hs1 & Hc1 & Hd1) (He2 & Hs2 & Hc2 & Hd2).
    unfold cacheKept. repeat split; auto.
    intros b Hb. destruct (He1 b Hb) as [H|[Hstrict H]]; apply He2 in H; tauto.
Qed.

(** A state with the same cache entries keeps them. *)
Lemma cacheKept_same strict p s s' :
  cached s' p = cached s p → cacheKept strict p s s'.
Proof. intros Heq. unfold cacheKept. rewrite Heq. repeat split; auto. Qed.

End CacheKeptFacts.

(** Runs the first step of a method on a state. *)
Ltac run_prim :=
  solve [ apply getOrCreate_run | apply call_run | apply updateEntry_run
        | apply withGraph_run | apply addDependee_ok | apply mret_run ].

Ltac run_step := erewrite bind_ok by run_prim.

(** Rewrites what a run left of the cache entries and the trace. *)
Ltac after_simpl :=
  repeat first
    [ rewrite cached_updateEntry | rewrite cached_call
    | rewrite cached_getOrCreate | rewrite cached_withGraph
    | rewrite cached_withOutputCache | rewrite cached_addDependee
    | rewrite cached_getNode
    | rewrite trace_call | rewrite trace_updateEntry
    | rewrite trace_getOrCreate | rewrite trace_withGraph
    | rewrite trace_addDependee | rewrite trace_getNode ].

Section MethodsKeepCache.
Import Graph CacheHost.

Variable X : Externals.
Variable compilerHost : CompilerHost.
Variable config : HostConfig.

Lemma fileExists_cacheKept strict p f : keeps (cacheKept strict p) (fileExists compilerHost f).
Proof.
  intros s. unfold fileExists. run_step.
  destruct (exists_ (cached s f)) eqn:Hex.
  - simpl. apply cacheKept_same. now after_simpl.
  - unfold setExists. repeat run_step. simpl.
    unfold cacheKept. after_simpl.
    destruct (decide (p = f)) as [->|Hne]; simpl; [|repeat split; auto].
    repeat split; auto. intros b Hb. congruence.
Qed.

Lemma getOrCreate_cacheKept strict p f : keeps (cacheKept strict p) (getOrCreate f).
Proof. intros s. apply cacheKept_same, cached_getOrCreate. Qed.

Lemma call_cacheKept {A} strict p c (a : A) :
  keeps (cacheKept strict p) (call c a).
Proof. intros s. now apply cacheKept_same. Qed.

Lemma withGraph_cacheKept strict p g : keeps (cacheKept strict p) (withGraph g).
Proof. intros s. now apply cacheKept_same. Qed.

Lemma withOutputCache_cacheKept strict p g : keeps (cacheKept strict p) (withOutputCache g).
Proof. intros s. now apply cacheKept_same. Qed.

Lemma outputCacheGet_cacheKept strict p f : keeps (cacheKept strict p) (outputCacheGet f).
Proof. intros s. now apply cacheKept_same. Qed.

Lemma getNode_cacheKept strict p f : keeps (cacheKept strict p) (getNode X f).
Proof. intros s. apply cacheKept_same, cached_getNode. Qed.

Lemma addDependee_cacheKept strict p f : keeps (cacheKept strict p) (addDependee X config f).
Proof. intros s. apply cacheKept_same, cached_addDependee. Qed.

(** Setting the existence flag to [true] is allowed at any time. *)
Lemma setExists_true_cacheKept p f : keeps (cacheKept false p) (setExists f true).
Proof.
  intros s. unfold setExists, cacheKept. fold (after (updateEntry f
    (λ e, mkCacheEntry (Some true) (sourceFile e) (content e)
                       (declarationFileName e))) s).
  after_simpl. destruct (decide (p = f)) as [->|Hne]; simpl; repeat split; auto.
Qed.

#[local] Hint Resolve getOrCreate_cacheKept call_cacheKept withGraph_cacheKept
  withOutputCache_cacheKept outputCacheGet_cacheKept getNode_cacheKept
  addDependee_cacheKept setExists_true_cacheKept : keeps.

Lemma getSourceFile_cacheKept strict p f v :
  keeps (cacheKept strict p) (getSourceFile X compilerHost config f v).
Proof.
  intros s. unfold getSourceFile. repeat run_step. after_simpl.
  destruct (sourceFile (cached s f)) eqn:Hsf.
  - simpl. apply cacheKept_same. now after_simpl.
  - unfold setSourceFile. repeat run_step. simpl.
    unfold cacheKept. after_simpl.
    destruct (decide (p = f)) as [->|Hne]; simpl; [|repeat split; auto].
    repeat split; auto. intros sf Hsf'. congruence.
Qed.

Lemma readFile_cacheKept strict p f :
  keeps (cacheKept strict p) (readFile X compilerHost config f).
Proof.
  intros s. unfold readFile. repeat run_step. after_simpl.
  destruct (content (cached s f)) eqn:Hc.
  - simpl. apply cacheKept_same. now after_simpl.
  - unfold setContent. repeat run_step. simpl.
    unfold cacheKept. after_simpl.
    destruct (decide (p = f)) as [->|Hne]; simpl; [|repeat split; auto].
    repeat split; auto. intros c Hc'. congruence.
Qed.

Lemma recordDeclaration_cacheKept strict p out source :
  keeps (cacheKept strict p) (recordDeclaration X out source).
Proof.
  intros s. unfold recordDeclaration. run_step.
  destruct (JsString.truthy (declarationFileName (cached s (Ts.fileName source))))
    eqn:Htruthy.
  - simpl. apply cacheKept_same. now after_simpl.
  - unfold setDeclarationFileName.
    fold (after (updateEntry (Ts.fileName source)
      (λ e, mkCacheEntry (exists_ e) (sourceFile e) (content e)
                         (Some (ensureUnixPath X out))))
      (after (getOrCreate (Ts.fileName source)) s)).
    unfold cacheKept. after_simpl.
    destruct (decide (p = Ts.fileName source)) as [->|Hne]; simpl;
      [|repeat split; auto].
    repeat split; auto. intros d Hd Hne.
    rewrite Hd in Htruthy. simpl in Htruthy.
    destruct (String.eqb_spec d ""); [contradiction|discriminate].
Qed.

#[local] Hint Resolve recordDeclaration_cacheKept : keeps.

Lemma writeFile_cacheKept strict p f data bom sources :
  keeps (cacheKept strict p) (writeFile X config f data bom sources).
Proof. unfold writeFile. keeps_auto. Qed.

Lemma resolveModuleNames_cacheKept strict p names c :
  keeps (cacheKept strict p) (resolveModuleNames X names c).
Proof. unfold resolveModuleNames. keeps_auto. Qed.

Lemma resourceNameToFileName_cacheKept strict p r c :
  keeps (cacheKept strict p) (resourceNameToFileName X r c).
Proof. unfold resourceNameToFileName. keeps_auto. Qed.

Lemma keeps_from {A} strict p (k : M A) s s1 :
  cacheKept strict p s s1 → keeps (cacheKept strict p) k →
  cacheKept strict p s (k s1).2.
Proof. intros Hs Hk. etransitivity; [exact Hs|apply Hk]. Qed.

Lemma bind_assoc_run {S A B C} (m : Eff S A) (f : A → Eff S B)
    (g : B → Eff S C) s :
  ((m ≫= f) ≫= g) s = (m ≫= λ x, f x ≫= g) s.
Proof. unfold mbind, Eff_bind. now destruct (m s) as [[a|e] s1]. Qed.

(** Closes [cacheKept strict p s s'] for an [s'] given by the steps that led to
    it. *)
Ltac kept_close :=
  simpl; unfold cacheKept; after_simpl; repeat case_decide; subst; simpl;
  repeat split; auto; intros;
  first [ congruence | right; split; reflexivity ].

Lemma readResource_cacheKept p f :
  keeps (cacheKept false p) (readResource X compilerHost config f).
Proof.
  intros s. unfold readResource. repeat run_step. after_simpl.
  destruct (content (cached s f)) eqn:Hc.
  - simpl. apply cacheKept_same. now after_simpl.
  - run_step. destruct (host_fileExists compilerHost f); simpl.
    + destruct (isTemplateExtension (path_extname X f)).
      * repeat run_step. kept_close.
      * unfold processStylesheet.
        destruct (stylesheetProcessor config) as [process|].
        -- rewrite !bind_assoc_run. repeat run_step. kept_close.
        -- unfold mbind, Eff_bind, throw. simpl.
           apply cacheKept_same. now after_simpl.
    + apply cacheKept_same. unfold throw. simpl. now after_simpl.
Qed.

Lemma transformResource_cacheKept p data context :
  keeps (cacheKept false p) (transformResource X config data context).
Proof.
  intros s. unfold transformResource.
  destruct (_ || _); [reflexivity|].
  destruct (JsString.truthy (inlineStyleLanguage config)); [|reflexivity].
  cbv zeta.
  set (fileName := containingFile context +:+ "-" +:+ sha1_hex X data +:+ "."
                   +:+ default "" (inlineStyleLanguage config)).
  run_step.
  destruct (content (cached s fileName)) eqn:Hc.
  - apply keeps_from; [|keeps_auto].
    apply cacheKept_same. now after_simpl.
  - unfold processStylesheet.
    destruct (stylesheetProcessor config) as [process|].
    + rewrite !bind_assoc_run. repeat run_step. rewrite !bind_assoc_run.
      repeat run_step.
      apply keeps_from; [kept_close|keeps_auto].
    + unfold mbind, Eff_bind, throw. simpl.
      apply cacheKept_same. now after_simpl.
Qed.

#[local] Hint Resolve fileExists_cacheKept getSourceFile_cacheKept
  readFile_cacheKept writeFile_cacheKept resolveModuleNames_cacheKept
  resourceNameToFileName_cacheKept readResource_cacheKept
  transformResource_cacheKept : keeps.

Lemma exec_cacheKept p op s :
  cacheKept false p s (exec X compilerHost config op s).
Proof.
  destruct op; simpl; unfold after;
    first [ apply fileExists_cacheKept | apply getSourceFile_cacheKept
          | apply writeFile_cacheKept | apply readFile_cacheKept
          | apply resolveModuleNames_cacheKept
          | apply resourceNameToFileName_cacheKept
          | apply readResource_cacheKept | apply transformResource_cacheKept ].
Qed.

(** Whatever the compiler calls, in whatever order: filled fields stay. *)
Lemma run_cacheKept p ops s :
  cacheKept false p s (run X compilerHost config ops s).
Proof.
  revert s. induction ops as [|op ops IH]; intros s; simpl.
  - reflexivity.
  - etransitivity; [apply exec_cacheKept|apply IH].
Qed.

(** An assignment to the entry of another path leaves the entry of the
    path. *)
Lemma updateEntry_cacheKept_other strict p f g :
  f ≠ p → keeps (cacheKept strict p) (updateEntry f g).
Proof.
  intros Hne s. apply cacheKept_same.
  change (cached (after (updateEntry f g) s) p = cached s p).
  rewrite cached_updateEntry. now rewrite decide_False by congruence.
Qed.

Lemma readResource_cacheKept_other p f :
  f ≠ p → keeps (cacheKept true p) (readResource X compilerHost config f).
Proof.
  intros Hne. unfold readResource, setContent, setExists, processStylesheet.
  repeat keeps_step; eauto using updateEntry_cacheKept_other with keeps.
Qed.

Lemma transformResource_cacheKept_other p data context :
  inlineStyleFileName X config data context ≠ p →
  keeps (cacheKept true p) (transformResource X config data context).
Proof.
  unfold inlineStyleFileName. intros Hne.
  unfold transformResource, setContent, setExists, processStylesheet.
  repeat keeps_step; eauto using updateEntry_cacheKept_other with keeps.
Qed.

Lemma exec_cacheKept_strict p op s :
  overwritesExists X config p op = false →
  cacheKept true p s (exec X compilerHost config op s).
Proof.
  destruct op; simpl; intros Hop; unfold after;
    first [ apply fileExists_cacheKept | apply getSourceFile_cacheKept
          | apply writeFile_cacheKept | apply readFile_cacheKept
          | apply resolveModuleNames_cacheKept
          | apply resourceNameToFileName_cacheKept
          | apply readResource_cacheKept_other
          | apply transformResource_cacheKept_other ];
    now apply String.eqb_neq.
Qed.

(** Without a resource read of the path and without a transform of an
    inline style that is cached under the path, the existence flag of the
    path stays as it is, too. *)
Lemma run_cacheKept_strict p ops s :
  forallb (λ op, negb (overwritesExists X config p op)) ops = true →
  cacheKept true p s (run X compilerHost config ops s).
Proof.
  revert s. induction ops as [|op ops IH]; intros s Hplain; simpl.
  - reflexivity.
  - simpl in Hplain. apply andb_true_iff in Hplain as [Hop Hops].
    apply negb_true_iff in Hop.
    etransitivity; [apply exec_cacheKept_strict, Hop|apply IH, Hops].
Qed.

End MethodsKeepCache.

Section CacheHitFacts.
Import Graph CacheHost.

Variable X : Externals.
Variable compilerHost : CompilerHost.
Variable config : HostConfig.

(** A path with a filled field has an entry in the file cache. *)
Lemma cached_present s f :
  cached s f ≠ emptyEntry → is_Some (sourcesFileCache s !! f).
Proof.
  unfold cached. destruct (sourcesFileCache s !! f); [eauto|]. simpl. congruence.
Qed.

Lemma fileExists_hit f b s :
  exists_ (cached s f) = Some b → fileExists compilerHost f s = (Ok b, s).
Proof.
  intros Hb. unfold fileExists. run_step. rewrite Hb. simpl.
  rewrite getOrCreate_present; [reflexivity|].
  apply cached_present. intros Heq. now rewrite Heq in Hb.
Qed.

Lemma getSourceFile_hit f v sf s :
  sourceFile (cached s f) = Some sf →
  getSourceFile X compilerHost config f v s =
  (Ok (Some sf), after (addDependee X config f) s).
Proof.
  intros Hsf. unfold getSourceFile. repeat run_step. after_simpl.
  rewrite Hsf. simpl.
  rewrite getOrCreate_present; [reflexivity|].
  apply cached_present. rewrite cached_addDependee.
  intros Heq. now rewrite Heq in Hsf.
Qed.

Lemma readFile_hit f c s :
  content (cached s f) = Some c →
  readFile X compilerHost config f s =
  (Ok (Some c), after (addDependee X config f) s).
Proof.
  intros Hc. unfold readFile. repeat run_step. after_simpl.
  rewrite Hc. simpl.
  rewrite getOrCreate_present; [reflexivity|].
  apply cached_present. rewrite cached_addDependee.
  intros Heq. now rewrite Heq in Hc.
Qed.

(** Each of the three methods fills its field with what it returns. *)
Lemma fileExists_fills f s :
  ∃ b, (fileExists compilerHost f s).1 = Ok b ∧
       exists_ (cached (after (fileExists compilerHost f) s) f) = Some b.
Proof.
  unfold after, fileExists. run_step.
  destruct (exists_ (cached s f)) as [b|] eqn:Hb.
  - exists b. simpl. split; [reflexivity|]. now after_simpl.
  - unfold setExists. repeat run_step. eexists. simpl.
    split; [reflexivity|]. after_simpl. now rewrite decide_True.
Qed.

Lemma getSourceFile_fills f v s :
  ∃ r, (getSourceFile X compilerHost config f v s).1 = Ok r ∧
       sourceFile (cached (after (getSourceFile X compilerHost config f v) s) f)
         = r.
Proof.
  unfold after, getSourceFile. repeat run_step. after_simpl.
  destruct (sourceFile (cached s f)) as [sf|] eqn:Hsf.
  - eexists. simpl. split; [reflexivity|]. now after_simpl.
  - unfold setSourceFile. repeat run_step. eexists. simpl.
    split; [reflexivity|]. after_simpl. now rewrite decide_True.
Qed.

Lemma readFile_fills f s :
  ∃ r, (readFile X compilerHost config f s).1 = Ok r ∧
       content (cached (after (readFile X compilerHost config f) s) f) = r.
Proof.
  unfold after, readFile. repeat run_step. after_simpl.
  destruct (content (cached s f)) as [c|] eqn:Hc.
  - eexists. simpl. split; [reflexivity|]. now after_simpl.
  - unfold setContent. repeat run_step. eexists. simpl.
    split; [reflexivity|]. after_simpl. now rewrite decide_True.
Qed.

(** C6. [fileExists], [getSourceFile] and [readFile] store what they return
    in the cache entry of the path.  Once a field of a path is filled, then
    after any sequence of calls of the host's methods the method of that
    field returns the cached value without a call to the underlying host:
    the trace and the caches stay as they are.  The parsed source file and
    the content are the values that were filled in; the existence flag is
    the value that was filled in when no resource read of the path and no
    transform of an inline style cached under the path came in between,
    and that value or [true] when one did. *)
Theorem cached_fields_are_computed_once f v ops s :
  let s' := run X compilerHost config ops s in
  (∃ b, (fileExists compilerHost f s).1 = Ok b ∧
        exists_ (cached (after (fileExists compilerHost f) s) f) = Some b) ∧
  (∃ r, (getSourceFile X compilerHost config f v s).1 = Ok r ∧
        sourceFile (cached (after (getSourceFile X compilerHost config f v) s) f)
          = r) ∧
  (∃ r, (readFile X compilerHost config f s).1 = Ok r ∧
        content (cached (after (readFile X compilerHost config f) s) f) = r) ∧
  (∀ b, exists_ (cached s f) = Some b →
     (∃ b', (b' = b ∨ b' = true) ∧
            fileExists compilerHost f s' = (Ok b', s')) ∧
     (forallb (λ op, negb (overwritesExists X config f op)) ops = true →
      fileExists compilerHost f s' = (Ok b, s'))) ∧
  (∀ sf, sourceFile (cached s f) = Some sf →
     (getSourceFile X compilerHost config f v s').1 = Ok (Some sf) ∧
     sameCaches s' (after (getSourceFile X compilerHost config f v) s')) ∧
  (∀ c, content (cached s f) = Some c →
     (readFile X compilerHost config f s').1 = Ok (Some c) ∧
     sameCaches s' (after (readFile X compilerHost config f) s')).
Proof.
  cbv zeta.
  destruct (run_cacheKept X compilerHost config f ops s) as (He & Hs & Hc & _).
  split; [apply fileExists_fills|].
  split; [apply getSourceFile_fills|].
  split; [apply readFile_fills|].
  split; [|split].
  - intros b Hb. split.
    + destruct (He b Hb) as [H|[_ H]].
      * exists b. split; [now left|]. now apply fileExists_hit.
      * exists true. split; [now right|]. now apply fileExists_hit.
    + intros Hplain. apply fileExists_hit.
      destruct (run_cacheKept_strict X compilerHost config f ops s Hplain)
        as (Hstrict & _).
      destruct (Hstrict b Hb) as [H|[Hfalse _]]; [exact H|discriminate].
  - intros sf Hsf. apply Hs in Hsf. unfold after.
    rewrite (getSourceFile_hit _ v _ _ Hsf). simpl.
    split; [reflexivity|]. apply addDependee_sameCaches.
  - intros c Hcontent. apply Hc in Hcontent. unfold after.
    rewrite (readFile_hit _ _ _ Hcontent). simpl.
    split; [reflexivity|]. apply addDependee_sameCaches.
Qed.

End CacheHitFacts.

(** C6 fails as stated for the existence flag: [fileExists] finds that the
    file under which an inline style of [a.ts] is cached is not on disk and
    stores [false]; the transform of that inline style sets the flag of the
    same path to [true]; the next [fileExists] of the path, on the same
    disk and without a call to the underlying host, answers [true]. *)
Lemma inline_style_overwrites_existence_flag :
  let v := "/lib/src/a.ts-sha1(.a { color: red }).scss" in
  let s1 := CacheHost.after (CacheHost.fileExists Sample.host v)
              CacheHost.initial in
  let s2 := CacheHost.after
              (CacheHost.transformResource Sample.X Sample.config
                 ".a { color: red }" SampleCases.inlineStyle) s1 in
  CacheHost.host_fileExists Sample.host v = false ∧
  CacheHost.fileExists Sample.host v CacheHost.initial = (Ok false, s1) ∧
  CacheHost.exists_ (CacheHost.cached s1 v) = Some false ∧
  CacheHost.fileExists Sample.host v s2 = (Ok true, s2).
Proof. cbv zeta. repeat split; vm_compute; reflexivity. Qed.

Section DeclarationFacts.
Import Graph CacheHost.

Variable X : Externals.
Variable compilerHost : CompilerHost.
Variable config : HostConfig.

Lemma endsWith_nonempty s p : p ≠ "" → JsString.endsWith s p = true → s ≠ "".
Proof.
  intros Hp Hends ->. unfold JsString.endsWith in Hends.
  destruct p; [contradiction|discriminate].
Qed.

Lemma append_nonempty a b : a ≠ "" → a +:+ b ≠ "".
Proof. destruct a; [contradiction|discriminate]. Qed.

Lemma replace_nonempty s pat rep :
  s ≠ "" → rep ≠ "" → JsString.replace s pat rep ≠ "".
Proof.
  intros Hs Hrep. destruct s as [|c s]; [contradiction|].
  unfold JsString.replace; fold JsString.replace.
  destruct (JsString.startsWith (String c s) pat).
  - now apply append_nonempty.
  - discriminate.
Qed.

Lemma truthy_Some d : d ≠ "" → JsString.truthy (Some d) = true.
Proof. intros Hd. simpl. now destruct (String.eqb_spec d ""). Qed.

Lemma truthy_inv o :
  JsString.truthy o = true → ∃ d, o = Some d ∧ d ≠ "".
Proof.
  destruct o as [d|]; simpl; [|discriminate].
  destruct (String.eqb_spec d ""); [discriminate|eauto].
Qed.

Lemma recordDeclaration_ok out source s :
  recordDeclaration X out source s =
  (Ok tt, after (recordDeclaration X out source) s).
Proof.
  unfold after, recordDeclaration. run_step.
  now destruct (JsString.truthy _).
Qed.

(** One source of a declaration emission: the name is recorded for its path
    unless a name is recorded there already. *)
Lemma recordDeclaration_records out source s p :
  declarationFileName (cached (after (recordDeclaration X out source) s) p) =
  if decide (p = Ts.fileName source) then
    if JsString.truthy (declarationFileName (cached s p))
    then declarationFileName (cached s p)
    else Some (ensureUnixPath X out)
  else declarationFileName (cached s p).
Proof.
  unfold after at 1. unfold recordDeclaration. run_step.
  destruct (JsString.truthy
              (declarationFileName (cached s (Ts.fileName source))))
    eqn:Htruthy.
  - rewrite mret_run. cbn [snd]. rewrite !cached_getOrCreate.
    destruct (decide (p = Ts.fileName source)) as [->|Hne]; [|reflexivity].
    now rewrite Htruthy.
  - unfold setDeclarationFileName. rewrite updateEntry_run. cbn [snd].
    after_simpl.
    destruct (decide (p = Ts.fileName source)) as [->|Hne]; [|reflexivity].
    now rewrite Htruthy.
Qed.

Lemma forEach_recordDeclaration_ok out sources s :
  forEach (recordDeclaration X out) sources s =
  (Ok tt, after (forEach (recordDeclaration X out) sources) s).
Proof.
  revert s. induction sources as [|a l IH]; intros s; [reflexivity|].
  unfold after. simpl.
  rewrite (bind_ok _ _ _ _ _ (recordDeclaration_ok out a s)).
  rewrite IH. reflexivity.
Qed.

Lemma forEach_recordDeclaration_cons out a l s :
  after (forEach (recordDeclaration X out) (a :: l)) s =
  after (forEach (recordDeclaration X out) l)
        (after (recordDeclaration X out a) s).
Proof.
  unfold after at 1. simpl.
  now rewrite (bind_ok _ _ _ _ _ (recordDeclaration_ok out a s)).
Qed.

(** All sources of a declaration emission. *)
Lemma forEach_recordDeclaration_records out sources s p :
  declarationFileName
    (cached (after (forEach (recordDeclaration X out) sources) s) p) =
  if JsString.truthy (declarationFileName (cached s p))
  then declarationFileName (cached s p)
  else if bool_decide (p ∈ List.map Ts.fileName sources)
       then Some (ensureUnixPath X out)
       else declarationFileName (cached s p).
Proof.
  revert s. induction sources as [|a l IH]; intros s.
  - unfold after. simpl. now destruct (JsString.truthy _).
  - rewrite forEach_recordDeclaration_cons, IH, recordDeclaration_records.
    simpl List.map.
    destruct (JsString.truthy (declarationFileName (cached s p))) eqn:Hold.
    + destruct (decide (p = Ts.fileName a)); now rewrite Hold.
    + destruct (decide (p = Ts.fileName a)) as [->|Hne].
      * rewrite (bool_decide_eq_true_2
                   (Ts.fileName a ∈ Ts.fileName a :: List.map Ts.fileName l))
          by left.
        now destruct (JsString.truthy (Some _)),
                     (bool_decide (_ ∈ List.map Ts.fileName l)).
      * try rewrite Hold.
        destruct (bool_decide (p ∈ List.map Ts.fileName l)) eqn:Hin.
        -- apply bool_decide_eq_true in Hin.
           rewrite bool_decide_eq_true_2; [reflexivity|now right].
        -- apply bool_decide_eq_false in Hin.
           rewrite bool_decide_eq_false_2; [reflexivity|].
           intros Hin'. apply elem_of_cons in Hin' as [?|?]; contradiction.
Qed.

(** What [writeFile] does for a declaration file that is not suppressed. *)
Lemma writeFile_declaration_run fileName data bom sources s :
  JsString.endsWith fileName ".d.ts" = true →
  String.eqb fileName (flatModuleFileDtsPath X config)
    && hasIndexEntryFile X config = false →
  let out :=
    if String.eqb fileName (flatModuleFileDtsPath X config)
    then JsString.replace fileName (flatModuleFileDtsFilename config) "index.d.ts"
    else fileName in
  writeFile X config fileName data bom (Some sources) s =
  (Ok tt,
   after (call (CallWriteFile out data bom) tt)
         (after (forEach (recordDeclaration X out) sources) s)).
Proof.
  intros Hdts Hemit. cbv zeta. unfold writeFile. rewrite Hdts.
  destruct (String.eqb fileName (flatModuleFileDtsPath X config));
    [simpl in Hemit; rewrite Hemit|];
    unfold writeDeclaration, recordDeclarations;
    rewrite (bind_ok _ _ _ _ _ (forEach_recordDeclaration_ok _ sources s));
    reflexivity.
Qed.

Lemma forEach_recordDeclaration_frame out sources s :
  graph (after (forEach (recordDeclaration X out) sources) s) = graph s ∧
  outputCache (after (forEach (recordDeclaration X out) sources) s)
    = outputCache s ∧
  trace (after (forEach (recordDeclaration X out) sources) s) = trace s.
Proof.
  revert s. induction sources as [|a l IH]; intros s; [now unfold after|].
  rewrite forEach_recordDeclaration_cons.
  destruct (IH (after (recordDeclaration X out a) s)) as (-> & -> & ->).
  unfold after, recordDeclaration. run_step.
  destruct (JsString.truthy _); simpl;
    now rewrite graph_getOrCreate, outputCache_getOrCreate, trace_getOrCreate.
Qed.

(** C10. A declaration emission that reaches the host records, for each of
    its source files, the name it is written under, unless the cache has a
    name for that source already; and the recorded name then stays through
    every later call of the host's methods, later declaration emissions
    for that source included. *)
Theorem declaration_name_is_recorded_once
    fileName data bom sources source ops s :
  (∀ q, q ≠ "" → ensureUnixPath X q ≠ "") →
  JsString.endsWith fileName ".d.ts" = true →
  String.eqb fileName (flatModuleFileDtsPath X config)
    && hasIndexEntryFile X config = false →
  source ∈ sources →
  let out :=
    if String.eqb fileName (flatModuleFileDtsPath X config)
    then JsString.replace fileName (flatModuleFileDtsFilename config) "index.d.ts"
    else fileName in
  let s1 := after (writeFile X config fileName data bom (Some sources)) s in
  let old := declarationFileName (cached s (Ts.fileName source)) in
  let recorded :=
    if JsString.truthy old then old else Some (ensureUnixPath X out) in
  declarationFileName (cached s1 (Ts.fileName source)) = recorded ∧
  declarationFileName
    (cached (run X compilerHost config ops s1) (Ts.fileName source)) = recorded.
Proof.
  intros Hunix Hdts Hemit Hin. cbv zeta.
  set (out := if String.eqb fileName (flatModuleFileDtsPath X config)
              then JsString.replace fileName (flatModuleFileDtsFilename config)
                     "index.d.ts"
              else fileName).
  assert (Hout : out ≠ "").
  { assert (fileName ≠ "") by (eapply endsWith_nonempty; [|exact Hdts]; discriminate).
    unfold out. destruct (String.eqb _ _); [|assumption].
    apply replace_nonempty; [assumption|discriminate]. }
  assert (Hfirst :
    declarationFileName
      (cached (after (writeFile X config fileName data bom (Some sources)) s)
              (Ts.fileName source)) =
    if JsString.truthy (declarationFileName (cached s (Ts.fileName source)))
    then declarationFileName (cached s (Ts.fileName source))
    else Some (ensureUnixPath X out)).
  { unfold after at 1.
    rewrite (writeFile_declaration_run _ _ _ _ _ Hdts Hemit). simpl.
    fold out. rewrite cached_call, forEach_recordDeclaration_records.
    destruct (JsString.truthy _); [reflexivity|].
    rewrite bool_decide_eq_true_2; [reflexivity|].
    apply list_elem_of_fmap. eauto. }
  split; [exact Hfirst|].
  destruct (run_cacheKept X compilerHost config (Ts.fileName source) ops
              (after (writeFile X config fileName data bom (Some sources)) s))
    as (_ & _ & _ & Hkept).
  destruct (JsString.truthy (declarationFileName (cached s (Ts.fileName source))))
    eqn:Hold.
  - destruct (truthy_inv _ Hold) as (d & Hd & Hne).
    rewrite Hd in *. now apply Hkept.
  - apply Hkept; [exact Hfirst|]. now apply Hunix.
Qed.

End DeclarationFacts.

Section ResourceFacts.
Import Graph CacheHost.

Variable X : Externals.
Variable compilerHost : CompilerHost.
Variable config : HostConfig.

(** A resource whose content is cached is answered from the cache; the file
    is not looked at. *)
Lemma readResource_hit f c s :
  content (cached s f) = Some c →
  readResource X compilerHost config f s =
  (Ok (Some c), after (addDependee X config f) s).
Proof.
  intros Hc. unfold readResource. repeat run_step. after_simpl.
  rewrite Hc. simpl.
  rewrite getOrCreate_present; [reflexivity|].
  apply cached_present. rewrite cached_addDependee.
  intros Heq. now rewrite Heq in Hc.
Qed.

(** C8, as the code has it. When the content of a resource is not cached and
    its file does not exist, [readResource] throws an error that names the
    path and leaves the content of the path unfilled. *)
Theorem readResource_missing_file f s :
  host_fileExists compilerHost f = false →
  content (cached s f) = None →
  (readResource X compilerHost config f s).1 =
    Throw ("Cannot read file " +:+ f +:+ ".") ∧
  content (cached (after (readResource X compilerHost config f) s) f) = None.
Proof.
  intros Hmissing Hc. unfold after, readResource. repeat run_step. after_simpl.
  rewrite Hc. run_step. rewrite Hmissing. simpl.
  split; [reflexivity|]. now after_simpl.
Qed.

End ResourceFacts.

(** C8 fails as stated: a resource that was read while its file was there is
    answered from the cache after the file is gone. *)
Lemma cached_resource_outlives_its_file :
  let s1 := CacheHost.after
              (CacheHost.readResource Sample.X Sample.host Sample.config
                 "/lib/src/a.html")
              CacheHost.initial in
  CacheHost.host_fileExists Sample.emptyHost "/lib/src/a.html" = false ∧
  (CacheHost.readResource Sample.X Sample.emptyHost Sample.config
     "/lib/src/a.html" s1).1 = Ok (Some "<p>a</p>").
Proof. cbv zeta. split; vm_compute; reflexivity. Qed.

Section FlatModuleFacts.
Import Graph CacheHost.

Variable X : Externals.
Variable config : HostConfig.

Lemma startsWith_refl p : JsString.startsWith p p = true.
Proof. induction p as [|c p IH]; simpl; [reflexivity|]. now rewrite Ascii.eqb_refl. Qed.

Lemma drop_length p : JsString.drop (String.length p) p = "".
Proof. induction p as [|c p IH]; simpl; auto. Qed.

Lemma append_nil_l s : "" +:+ s = s.
Proof. reflexivity. Qed.

Lemma append_cons c s t : String c s +:+ t = String c (s +:+ t).
Proof. reflexivity. Qed.

Lemma append_empty_r s : s +:+ "" = s.
Proof.
  induction s as [|c s IH]; [reflexivity|]. rewrite append_cons. now f_equal.
Qed.

(** [replace] rewrites the occurrence at the end of the string when there is
    none before it. *)
Lemma replace_at_end dir pat rep :
  (∀ n, n < String.length dir →
        JsString.startsWith (JsString.drop n (dir +:+ pat)) pat = false) →
  JsString.replace (dir +:+ pat) pat rep = dir +:+ rep.
Proof.
  induction dir as [|c dir IH]; intros Hnone.
  - rewrite !append_nil_l. destruct pat as [|a pat]; simpl.
    + now rewrite append_empty_r.
    + rewrite Ascii.eqb_refl, startsWith_refl. simpl.
      now rewrite drop_length, append_empty_r.
  - rewrite !append_cons. unfold JsString.replace; fold JsString.replace.
    pose proof (Hnone 0) as H0. rewrite append_cons in H0.
    cbn [JsString.drop] in H0. rewrite H0 by (simpl; lia). f_equal. apply IH.
    intros n Hn. apply (Hnone (S n)). simpl. lia.
Qed.

(** The flat module declaration of a library whose entry file is an index
    file is not written: no call leaves the host and no cache changes. *)
Lemma writeFile_flat_declaration_suppressed data bom sources s :
  JsString.endsWith (flatModuleFileDtsPath X config) ".d.ts" = true →
  hasIndexEntryFile X config = true →
  writeFile X config (flatModuleFileDtsPath X config) data bom sources s =
  (Ok tt, s).
Proof.
  intros Hdts Hindex. unfold writeFile.
  now rewrite Hdts, String.eqb_refl, Hindex.
Qed.

(** With any other entry file it is written, under the name that [replace]
    gives. *)
Lemma writeFile_flat_declaration_renamed data bom sources s :
  JsString.endsWith (flatModuleFileDtsPath X config) ".d.ts" = true →
  hasIndexEntryFile X config = false →
  let out := JsString.replace (flatModuleFileDtsPath X config)
               (flatModuleFileDtsFilename config) "index.d.ts" in
  let r := writeFile X config (flatModuleFileDtsPath X config) data bom
             (Some sources) s in
  r.1 = Ok tt ∧ trace r.2 = trace s ++ [CallWriteFile out data bom].
Proof.
  intros Hdts Hindex. cbv zeta.
  rewrite writeFile_declaration_run;
    [|exact Hdts|now rewrite String.eqb_refl, Hindex].
  rewrite String.eqb_refl. simpl. split; [reflexivity|].
  f_equal. apply forEach_recordDeclaration_frame.
Qed.

(** That name is [index.d.ts] in the directory of the flat module file when
    the flat module file name does not occur in the path before its end. *)
Lemma flat_declaration_becomes_index dir :
  flatModuleFileDtsPath X config = dir +:+ flatModuleFileDtsFilename config →
  (∀ n, n < String.length dir →
        JsString.startsWith
          (JsString.drop n (dir +:+ flatModuleFileDtsFilename config))
          (flatModuleFileDtsFilename config) = false) →
  JsString.replace (flatModuleFileDtsPath X config)
    (flatModuleFileDtsFilename config) "index.d.ts" = dir +:+ "index.d.ts".
Proof. intros -> Hnone. now apply replace_at_end. Qed.

End FlatModuleFacts.

Section FlatModuleInDirectory.
Import Graph CacheHost.

Variable X : Externals.

(** C1, where the code departs from it. The library [lib] has the entry file
    [public_api.ts] and is built into the directory [/dist/lib.d.ts]; the
    flat module declaration [/dist/lib.d.ts/lib.d.ts] is written, and the
    name it is written under is [/dist/index.d.ts/lib.d.ts]: the first
    occurrence of [lib.d.ts] is the directory, so the file keeps the flat
    module file name and is not called [index.d.ts]. *)
Theorem flat_declaration_renamed_in_directory data bom sources s :
  path_join X "/dist/lib.d.ts" "lib.d.ts" = "/dist/lib.d.ts/lib.d.ts" →
  ensureUnixPath X "/dist/lib.d.ts/lib.d.ts" = "/dist/lib.d.ts/lib.d.ts" →
  path_basename X "/lib/src/public_api.ts" = "public_api.ts" →
  let r := writeFile X Sample.nestedConfig "/dist/lib.d.ts/lib.d.ts" data bom
             (Some sources) s in
  flatModuleFileDtsPath X Sample.nestedConfig = "/dist/lib.d.ts/lib.d.ts" ∧
  hasIndexEntryFile X Sample.nestedConfig = false ∧
  r.1 = Ok tt ∧
  trace r.2 = trace s ++ [CallWriteFile "/dist/index.d.ts/lib.d.ts" data bom].
Proof.
  intros Hjoin Hunix Hbase. cbv zeta.
  assert (Hpath : flatModuleFileDtsPath X Sample.nestedConfig
                  = "/dist/lib.d.ts/lib.d.ts").
  { change (flatModuleFileDtsPath X Sample.nestedConfig)
      with (ensureUnixPath X (path_join X "/dist/lib.d.ts" "lib.d.ts")).
    now rewrite Hjoin, Hunix. }
  assert (Hindex : hasIndexEntryFile X Sample.nestedConfig = false).
  { change (hasIndexEntryFile X Sample.nestedConfig)
      with (String.eqb (path_basename X "/lib/src/public_api.ts") "index.ts").
    now rewrite Hbase. }
  split; [exact Hpath|]. split; [exact Hindex|].
  pose proof (writeFile_flat_declaration_renamed X Sample.nestedConfig
                data bom sources s) as Hrun.
  cbv zeta in Hrun. rewrite Hpath in Hrun.
  apply Hrun; [reflexivity|exact Hindex].
Qed.

End FlatModuleInDirectory.

(* ===================================================================== *)
(** * The theorems at concrete inputs *)
(* ===================================================================== *)

(** C1 on the sample environment: the flat module declaration of the
    library built into [/dist/lib.d.ts] is written into
    [/dist/index.d.ts]. *)
Lemma flat_declaration_renamed_in_directory_witness :
  (CacheHost.path_join Sample.X "/dist/lib.d.ts" "lib.d.ts"
     = "/dist/lib.d.ts/lib.d.ts" ∧
   CacheHost.ensureUnixPath Sample.X "/dist/lib.d.ts/lib.d.ts"
     = "/dist/lib.d.ts/lib.d.ts" ∧
   CacheHost.path_basename Sample.X "/lib/src/public_api.ts"
     = "public_api.ts") ∧
  CacheHost.trace
    (CacheHost.writeFile Sample.X Sample.nestedConfig "/dist/lib.d.ts/lib.d.ts"
       "export * from './public_api';" false (Some []) CacheHost.initial).2
  = [CacheHost.CallWriteFile "/dist/index.d.ts/lib.d.ts"
       "export * from './public_api';" false].
Proof.
  split; [repeat split|].
  apply (flat_declaration_renamed_in_directory Sample.X
           "export * from './public_api';" false [] CacheHost.initial);
    reflexivity.
Defined.


(** C7 with the cache switched off by [false]. *)
Lemma downlevel_without_cache_witness :
  Downlevel.enabled Downlevel.CacheDirFalse = None ∧
  Downlevel.events
    (Downlevel.downlevelCodeWithTsc (λ c, c) Sample.dirname
       (λ code _, (code, Some "{}")) (λ t : string, Some t)
       "let a = 1;" "/lib/fesm/lib.js" Downlevel.CacheDirFalse
       (Downlevel.mkState ∅ [])).2
  = [Downlevel.LogDebug "tsc /lib/fesm/lib.js";
     Downlevel.Transpile "let a = 1;"
       (Downlevel.mkCompilerOptions Downlevel.ES2015 Downlevel.ESNext
          true true true true Downlevel.Classic (Some "/lib/fesm"))].
Proof.
  split; [reflexivity|].
  rewrite (downlevel_without_cache (λ c, c) Sample.dirname
             (λ code _, (code, Some "{}")) (λ t : string, Some t)
             "let a = 1;" "/lib/fesm/lib.js" Downlevel.CacheDirFalse
             (Downlevel.mkState ∅ []) eq_refl).
  reflexivity.
Defined.

(** C8 on the sample environment after every file was deleted. *)
Lemma readResource_missing_file_witness :
  CacheHost.host_fileExists Sample.emptyHost "/lib/src/a.html" = false ∧
  CacheHost.content (CacheHost.cached CacheHost.initial "/lib/src/a.html")
    = None ∧
  (CacheHost.readResource Sample.X Sample.emptyHost Sample.config
     "/lib/src/a.html" CacheHost.initial).1
  = Throw "Cannot read file /lib/src/a.html.".
Proof.
  split; [reflexivity|]. split; [reflexivity|].
  apply (readResource_missing_file Sample.X Sample.emptyHost Sample.config
           "/lib/src/a.html" CacheHost.initial); reflexivity.
Defined.

(** C10 on the sample environment: the declaration of [a.ts] is written,
    then the flat module declaration that covers [a.ts] too; the name
    recorded for [a.ts] is the first one. *)
Lemma declaration_name_is_recorded_once_witness :
  let a := Ts.mkSourceFile "/lib/src/a.ts" "export const a = 1;" None in
  let s1 :=
    CacheHost.after
      (CacheHost.writeFile Sample.X Sample.config "/dist/lib/src/a.d.ts"
         "export declare const a = 1;" false (Some [a]))
      CacheHost.initial in
  let s2 :=
    CacheHost.run Sample.X Sample.host Sample.config
      [CacheHost.OpWriteFile "/dist/lib/lib.d.ts" "export * from './src/a';"
         false (Some [a])] s1 in
  (JsString.endsWith "/dist/lib/src/a.d.ts" ".d.ts" = true ∧
   String.eqb "/dist/lib/src/a.d.ts"
       (CacheHost.flatModuleFileDtsPath Sample.X Sample.config)
     && CacheHost.hasIndexEntryFile Sample.X Sample.config = false) ∧
  CacheHost.declarationFileName (CacheHost.cached s1 "/lib/src/a.ts")
    = Some "/dist/lib/src/a.d.ts" ∧
  CacheHost.declarationFileName (CacheHost.cached s2 "/lib/src/a.ts")
    = Some "/dist/lib/src/a.d.ts".
Proof.
  cbv zeta. split; [split; reflexivity|].
  apply (declaration_name_is_recorded_once Sample.X Sample.host Sample.config
           "/dist/lib/src/a.d.ts" "export declare const a = 1;" false
           [Ts.mkSourceFile "/lib/src/a.ts" "export const a = 1;" None]
           (Ts.mkSourceFile "/lib/src/a.ts" "export const a = 1;" None)
           [CacheHost.OpWriteFile "/dist/lib/lib.d.ts"
              "export * from './src/a';" false
              (Some [Ts.mkSourceFile "/lib/src/a.ts" "export const a = 1;" None])]
           CacheHost.initial).
  - intros q Hq. exact Hq.
  - reflexivity.
  - reflexivity.
  - apply list_elem_of_here.
Defined.

(* ===================================================================== *)
(** * Further properties of the caching compiler host *)
(* ===================================================================== *)


Section StringFacts.

Lemma length_append a b :
  String.length (a +:+ b) = String.length a + String.length b.
Proof.
  induction a as [|c a IH]; [reflexivity|].
  rewrite append_cons. simpl. now rewrite IH.
Qed.

Lemma append_assoc a b c : (a +:+ b) +:+ c = a +:+ (b +:+ c).
Proof.
  induction a as [|x a IH]; [reflexivity|].
  rewrite !append_cons. now rewrite IH.
Qed.

Lemma drop_append a b : JsString.drop (String.length a) (a +:+ b) = b.
Proof. induction a as [|c a IH]; [reflexivity|]. rewrite append_cons. exact IH. Qed.

Lemma take_append a b : JsString.take (String.length a) (a +:+ b) = a.
Proof.
  induction a as [|c a IH]; [now destruct b|].
  rewrite append_cons. simpl. now rewrite IH.
Qed.

Lemma endsWith_append a b : JsString.endsWith (a +:+ b) b = true.
Proof.
  unfold JsString.endsWith. rewrite length_append.
  replace (String.length a + String.length b - String.length b)
    with (String.length a) by lia.
  rewrite drop_append, String.eqb_refl.
  rewrite andb_true_r. apply Nat.leb_le. lia.
Qed.

(** An occurrence found by [indexOf] is the first one. *)
Lemma indexOf_first s pat i :
  JsSearch.indexOf s pat = Some i →
  ∀ n, n < i → JsString.startsWith (JsString.drop n s) pat = false.
Proof.
  revert i. induction s as [|c s IH]; intros i.
  - unfold JsSearch.indexOf.
    destruct (JsString.startsWith "" pat); [|intros [=]].
    intros [= <-] n Hn. lia.
  - unfold JsSearch.indexOf; fold JsSearch.indexOf.
    destruct (JsString.startsWith (String c s) pat) eqn:Hhere.
    + intros [= <-] n Hn. lia.
    + destruct (JsSearch.indexOf s pat) as [j|] eqn:Hj; [|intros [=]].
      simpl. intros [= <-] n Hn. destruct n as [|n]; [exact Hhere|].
      simpl. apply (IH j eq_refl). lia.
Qed.

End StringFacts.

Section WriteFileCases.
Import Graph CacheHost.

Variable X : Externals.
Variable config : HostConfig.

(** [replace] in terms of [indexOf]: from the first occurrence on, or not at
    all. *)
Lemma replace_first_at dir pat rep :
  JsSearch.indexOf (dir +:+ pat) pat = Some (String.length dir) →
  JsString.replace (dir +:+ pat) pat rep = dir +:+ rep.
Proof.
  intros Hfirst. apply replace_at_end. now apply indexOf_first.
Qed.

(** X1. For a library whose entry file is an index file, the write of the
    flat module declaration returns at once: no call leaves the host, and
    the graph and both caches are as before. *)
Theorem index_entry_writes_no_flat_declaration data bom sources s :
  JsString.endsWith (flatModuleFileDtsPath X config) ".d.ts" = true →
  hasIndexEntryFile X config = true →
  writeFile X config (flatModuleFileDtsPath X config) data bom sources s
  = (Ok tt, s).
Proof. apply writeFile_flat_declaration_suppressed. Qed.

(** X2. For any other entry file, when the flat module file name first
    occurs in the flat module path as its last segment, the flat module
    declaration is handed to the underlying host as [index.d.ts] of the
    same directory, with the data and the byte order mark flag it came
    with, and this is the only call. *)
Theorem flat_declaration_written_as_index dir data bom sources s :
  hasIndexEntryFile X config = false →
  flatModuleFileDtsPath X config = dir +:+ flatModuleFileDtsFilename config →
  JsSearch.indexOf (flatModuleFileDtsPath X config)
                   (flatModuleFileDtsFilename config)
    = Some (String.length dir) →
  let r := writeFile X config (flatModuleFileDtsPath X config) data bom
             (Some sources) s in
  r.1 = Ok tt ∧
  trace r.2 = trace s ++ [CallWriteFile (dir +:+ "index.d.ts") data bom].
Proof.
  intros Hindex Hpath Hfirst. cbv zeta.
  assert (Hdts : JsString.endsWith (flatModuleFileDtsPath X config) ".d.ts"
                 = true).
  { rewrite Hpath. unfold flatModuleFileDtsFilename.
    rewrite <- append_assoc. apply endsWith_append. }
  pose proof (writeFile_flat_declaration_renamed X config data bom sources s
                Hdts Hindex) as Hrun.
  cbv zeta in Hrun. rewrite Hpath in Hfirst.
  rewrite Hpath in Hrun at 3. rewrite (replace_first_at _ _ _ Hfirst) in Hrun.
  exact Hrun.
Qed.

(** X3. A declaration file other than the flat module declaration is handed
    to the underlying host under the name it came with; this is the only
    call, and the graph and the output cache are not touched. *)
Theorem declaration_written_under_its_name fileName data bom sources s :
  JsString.endsWith fileName ".d.ts" = true →
  String.eqb fileName (flatModuleFileDtsPath X config) = false →
  let r := writeFile X config fileName data bom (Some sources) s in
  r.1 = Ok tt ∧
  trace r.2 = trace s ++ [CallWriteFile fileName data bom] ∧
  graph r.2 = graph s ∧
  outputCache r.2 = outputCache s.
Proof.
  intros Hdts Hother. cbv zeta.
  rewrite writeFile_declaration_run; [|exact Hdts|now rewrite Hother].
  rewrite Hother. cbn [fst snd].
  destruct (forEach_recordDeclaration_frame X fileName sources s)
    as (Hg & Ho & Ht).
  split; [reflexivity|].
  split; [rewrite trace_call; now rewrite Ht|].
  split; [exact Hg|exact Ho].
Qed.

(** X4. A declaration that is to be written but comes without its source
    files makes [writeFile] throw before anything is recorded or handed to
    the underlying host. *)
Theorem declaration_without_sources_throws fileName data bom s :
  JsString.endsWith fileName ".d.ts" = true →
  String.eqb fileName (flatModuleFileDtsPath X config)
    && hasIndexEntryFile X config = false →
  ∃ e, writeFile X config fileName data bom None s = (Throw e, s).
Proof.
  intros Hdts Hemit. unfold writeFile. rewrite Hdts.
  destruct (String.eqb fileName (flatModuleFileDtsPath X config));
    [simpl in Hemit; rewrite Hemit|]; eexists; reflexivity.
Qed.

(** X5. A write of an output that is no declaration file, when it returns,
    has stored the data under the output's [.mjs] name with the hash of the
    data as its version, with no source map unless that name ends in
    [.mjs]; the entries of other outputs, the graph and the file cache are
    as before, and the last call is the write of that name to the
    underlying host. *)
Theorem output_is_cached_under_its_mjs_name fileName data bom sources s s1 :
  JsString.endsWith fileName ".d.ts" = false →
  writeFile X config fileName data bom sources s = (Ok tt, s1) →
  let out := JsString.replaceJsExtension fileName in
  (∃ map,
     outputCache s1 !! out
       = Some (OutputCache.mkEntry data (sha256_hex X data) map) ∧
     (JsString.endsWith out ".mjs" = false → map = None)) ∧
  (∀ k, k ≠ out → outputCache s1 !! k = outputCache s !! k) ∧
  last (trace s1) = Some (CallWriteFile out data bom) ∧
  graph s1 = graph s ∧
  sourcesFileCache s1 = sourcesFileCache s.
Proof.
  intros Hout Hrun. cbv zeta.
  rewrite (writeFile_output_run X config _ _ _ _ _ Hout) in Hrun.
  cbv zeta in Hrun.
  destruct (JsString.endsWith (JsString.replaceJsExtension fileName) ".mjs").
  - destruct (match outputCache s !! _ with Some _ => _ | None => _ end).
    + injection Hrun as <-. simpl. rewrite lookup_insert_eq.
      split; [eexists; split; [reflexivity|discriminate]|].
      split; [intros k Hk; now rewrite lookup_insert_ne|].
      split; [apply last_snoc|]. split; reflexivity.
    + destruct (fromComment_toJSON X data); [|discriminate].
      injection Hrun as <-. simpl. rewrite lookup_insert_eq.
      split; [eexists; split; [reflexivity|discriminate]|].
      split; [intros k Hk; now rewrite lookup_insert_ne|].
      split; [|split; reflexivity].
      change [CallFromComment data;
              CallWriteFile (JsString.replaceJsExtension fileName) data bom]
        with ([CallFromComment data] ++
              [CallWriteFile (JsString.replaceJsExtension fileName) data bom]).
      rewrite app_assoc. apply last_snoc.
  - injection Hrun as <-. simpl. rewrite lookup_insert_eq.
    split; [eexists; split; reflexivity|].
    split; [intros k Hk; now rewrite lookup_insert_ne|].
    split; [apply last_snoc|]. split; reflexivity.
Qed.

(** X6. When the source map of an [.mjs] output has to be extracted and the
    extraction throws, [writeFile] throws: the output cache keeps what it
    had, and nothing is handed to the underlying host. *)
Theorem failed_extraction_writes_nothing fileName data bom sources s :
  JsString.endsWith fileName ".d.ts" = false →
  JsString.endsWith (JsString.replaceJsExtension fileName) ".mjs" = true →
  (∀ cachedData,
     outputCache s !! JsString.replaceJsExtension fileName = Some cachedData →
     OutputCache.version cachedData ≠ sha256_hex X data) →
  fromComment_toJSON X data = None →
  ∃ e, writeFile X config fileName data bom sources s =
       (Throw e,
        mkState (graph s) (sourcesFileCache s) (outputCache s)
                (trace s ++ [CallFromComment data])).
Proof.
  intros Hout Hmjs Hmiss Hthrows.
  rewrite (writeFile_output_run X config _ _ _ _ _ Hout). cbv zeta.
  rewrite Hmjs, Hthrows.
  destruct (outputCache s !! JsString.replaceJsExtension fileName)
    as [cd|] eqn:Hcd; [|eexists; reflexivity].
  destruct (String.eqb_spec (OutputCache.version cd) (sha256_hex X data))
    as [Heq|Hne]; [|eexists; reflexivity].
  now destruct (Hmiss cd eq_refl).
Qed.

End WriteFileCases.


Section GraphGrowthFacts.
Import Graph CacheHost GraphGrowth.

Variable X : Externals.
Variable compilerHost : CompilerHost.
Variable config : HostConfig.

#[export] Instance graphKept_preorder : PreOrder graphKept.
Proof.
  split.
  - intros s. split; [auto|set_solver].
  - intros s1 s2 s3 [Hn1 He1] [Hn2 He2]. split; [auto|set_solver].
Qed.

Lemma sameGraph_kept s s' : sameGraph s s' → graphKept s s'.
Proof. unfold sameGraph, graphKept. intros ->. split; [auto|set_solver]. Qed.

Lemma keeps_sameGraph_kept {A} (m : M A) : keeps sameGraph m → keeps graphKept m.
Proof. intros Hm s. apply sameGraph_kept, Hm. Qed.

Lemma getNode_graphKept f : keeps graphKept (getNode X f).
Proof.
  intros s. unfold getNode.
  destruct (Graph.get _ (graph s)) as [node|] eqn:Hget; simpl.
  - reflexivity.
  - split; [|set_solver]. intros u n Hu. simpl.
    unfold Graph.get, Graph.put in *. simpl.
    rewrite lookupNode_putNode_ne; [exact Hu|].
    simpl. intros <-. congruence.
Qed.

Lemma withGraph_dependsOn_graphKept a b :
  keeps graphKept (withGraph (dependsOn a b)).
Proof. intros s. split; simpl; [auto|set_solver]. Qed.

Lemma recordDeclaration_sameGraph out source :
  keeps sameGraph (recordDeclaration X out source).
Proof.
  unfold recordDeclaration, setDeclarationFileName.
  repeat keeps_step;
    first [ apply getOrCreate_sameGraph | apply updateEntry_sameGraph ].
Qed.

(** Closes [keeps graphKept m] for a method body. *)
Ltac graph_kept :=
  unfold setExists, setSourceFile, setContent, setDeclarationFileName,
    hostWriteFile, extractSourceMap, processStylesheet, writeDeclaration,
    recordDeclarations, addDependee;
  repeat keeps_step;
  first [ apply getNode_graphKept
        | apply withGraph_dependsOn_graphKept
        | apply keeps_sameGraph_kept;
          first [ apply getOrCreate_sameGraph | apply call_sameGraph
                | apply updateEntry_sameGraph | apply outputCacheGet_sameGraph
                | apply withOutputCache_sameGraph
                | apply recordDeclaration_sameGraph ] ].

Lemma exec_graphKept op s : graphKept s (exec X compilerHost config op s).
Proof.
  destruct op; simpl; unfold after;
    match goal with |- graphKept _ (?m _).2 => revert s; change (keeps graphKept m) end.
  - unfold fileExists. graph_kept.
  - unfold getSourceFile. graph_kept.
  - unfold writeFile. graph_kept.
  - unfold readFile. graph_kept.
  - unfold resolveModuleNames. graph_kept.
  - unfold resourceNameToFileName. graph_kept.
  - unfold readResource. graph_kept.
  - unfold transformResource. graph_kept.
Qed.

(** X7. Whatever methods of the host the compiler calls, in whatever order,
    no node of the graph is removed or replaced (a node keeps its payload,
    so the entry point keeps its data) and no edge is removed: the graph
    only grows. *)
Theorem host_methods_only_add_to_the_graph ops s :
  (∀ u n, Graph.get u (graph s) = Some n →
          Graph.get u (graph (run X compilerHost config ops s)) = Some n) ∧
  edges (graph s) ⊆ edges (graph (run X compilerHost config ops s)).
Proof.
  change (graphKept s (run X compilerHost config ops s)).
  revert s. induction ops as [|op ops IH]; intros s; simpl.
  - reflexivity.
  - etransitivity; [apply exec_graphKept|apply IH].
Qed.

End GraphGrowthFacts.

(** Closes [keeps sameGraph m] for a method body without graph steps. *)
Ltac same_graph :=
  unfold CacheHost.setExists, CacheHost.setSourceFile, CacheHost.setContent,
    CacheHost.setDeclarationFileName, CacheHost.hostWriteFile,
    CacheHost.extractSourceMap, CacheHost.processStylesheet;
  repeat keeps_step;
  first [ apply getOrCreate_sameGraph | apply call_sameGraph
        | apply updateEntry_sameGraph | apply outputCacheGet_sameGraph
        | apply withOutputCache_sameGraph ].

Section DependeeFacts.
Import Graph CacheHost GraphGrowth.

Variable X : Externals.
Variable compilerHost : CompilerHost.
Variable config : HostConfig.

Lemma graph_addDependee f s :
  graph (after (addDependee X config f) s) = withDependee X config f (graph s).
Proof.
  unfold after, addDependee, getNode, withDependee, mbind, Eff_bind.
  destruct (Graph.get _ (graph s)); reflexivity.
Qed.

Lemma dependsOn_twice a b g : dependsOn a b (dependsOn a b g) = dependsOn a b g.
Proof.
  unfold dependsOn. simpl. f_equal. apply set_eq. intros e.
  rewrite !elem_of_union. tauto.
Qed.

Lemma withDependee_idempotent f g :
  withDependee X config f (withDependee X config f g)
  = withDependee X config f g.
Proof.
  unfold withDependee.
  destruct (Graph.get _ g) as [node|] eqn:Hget.
  - change (Graph.get (fileUrl X (ensureUnixPath X f))
              (dependsOn (entryPointUrl config) (url node) g))
      with (Graph.get (fileUrl X (ensureUnixPath X f)) g).
    rewrite Hget. apply dependsOn_twice.
  - change (Graph.get (fileUrl X (ensureUnixPath X f))
              (dependsOn (entryPointUrl config) (fileUrl X (ensureUnixPath X f))
                 (put (newNode (fileUrl X (ensureUnixPath X f))) g)))
      with (lookupNode (url (newNode (fileUrl X (ensureUnixPath X f))))
              (putNode (newNode (fileUrl X (ensureUnixPath X f))) (store g))).
    rewrite lookupNode_putNode_eq. apply dependsOn_twice.
Qed.

Lemma graph_after_addDependee_then {A} f (rest : M A) s :
  keeps sameGraph rest →
  graph (after (addDependee X config f ;; rest) s)
  = withDependee X config f (graph s).
Proof.
  intros Hrest. unfold after.
  rewrite (bind_ok _ _ _ _ _ (addDependee_ok X config f s)).
  rewrite <- graph_addDependee. apply Hrest.
Qed.

Lemma graph_getSourceFile f v s :
  graph (after (getSourceFile X compilerHost config f v) s)
  = withDependee X config f (graph s).
Proof.
  unfold getSourceFile. apply graph_after_addDependee_then. same_graph.
Qed.

Lemma graph_readFile f s :
  graph (after (readFile X compilerHost config f) s)
  = withDependee X config f (graph s).
Proof. unfold readFile. apply graph_after_addDependee_then. same_graph. Qed.

Lemma graph_readResource f s :
  graph (after (readResource X compilerHost config f) s)
  = withDependee X config f (graph s).
Proof.
  unfold readResource. apply graph_after_addDependee_then. same_graph.
Qed.

(** X8. The graph that a read of a file leaves does not depend on which of
    [getSourceFile], [readFile] and [readResource] made it, nor on whether
    the read was answered from the cache or threw; and reading the same
    file again, by any of the three, leaves the graph as the first read
    left it: no second node, no second edge. *)
Theorem reading_again_leaves_the_graph f v s :
  let read1 := after (getSourceFile X compilerHost config f v) s in
  graph read1 = graph (after (readFile X compilerHost config f) s) ∧
  graph read1 = graph (after (readResource X compilerHost config f) s) ∧
  graph (after (getSourceFile X compilerHost config f v) read1) = graph read1 ∧
  graph (after (readFile X compilerHost config f) read1) = graph read1 ∧
  graph (after (readResource X compilerHost config f) read1) = graph read1.
Proof.
  cbv zeta.
  rewrite !graph_getSourceFile, !graph_readFile, !graph_readResource.
  rewrite !graph_getSourceFile, !withDependee_idempotent.
  repeat split.
Qed.

(** X9. [resourceNameToFileName] returns the resource name resolved against
    the directory of the containing file, leaves a node for the containing
    file and one for the resource in the graph with an edge from the
    former to the latter, and touches neither cache nor the underlying
    host. *)
Theorem resource_name_is_resolved_and_linked resourceName containingFile s :
  let resourcePath :=
    path_resolve X (path_dirname X containingFile) resourceName in
  let r := resourceNameToFileName X resourceName containingFile s in
  let uri p := fileUrl X (ensureUnixPath X p) in
  r.1 = Ok resourcePath ∧
  is_Some (Graph.get (uri containingFile) (graph r.2)) ∧
  is_Some (Graph.get (uri resourcePath) (graph r.2)) ∧
  (uri containingFile, uri resourcePath) ∈ edges (graph r.2) ∧
  sameCaches s r.2.
Proof.
  cbv beta zeta. unfold resourceNameToFileName.
  set (resourcePath := path_resolve X (path_dirname X containingFile) resourceName).
  destruct (getNode_run X containingFile s)
    as (n1 & Hok1 & Hurl1 & Hget1 & Hgrow1 & Hsame1).
  destruct (getNode X containingFile s) as [r1 s1] eqn:Hrun1.
  simpl in Hok1, Hget1, Hgrow1, Hsame1. subst r1.
  destruct (getNode_run X resourcePath s1)
    as (n2 & Hok2 & Hurl2 & Hget2 & Hgrow2 & Hsame2).
  destruct (getNode X resourcePath s1) as [r2 s2] eqn:Hrun2.
  simpl in Hok2, Hget2, Hgrow2, Hsame2. subst r2.
  rewrite (bind_ok _ _ _ _ _ Hrun1), (bind_ok _ _ _ _ _ Hrun2).
  unfold mbind, Eff_bind, withGraph, mret, Eff_ret. simpl.
  unfold Graph.get in *. simpl.
  split; [reflexivity|]. split.
  - apply Hgrow2. unfold Graph.get. rewrite Hget1. eauto.
  - split; [rewrite Hget2; eauto|].
    split; [rewrite Hurl1, Hurl2; set_solver|].
    destruct Hsame1 as (? & ? & ?), Hsame2 as (? & ? & ?).
    repeat split; simpl; congruence.
Qed.

End DependeeFacts.

Section ResourceCases.
Import Graph CacheHost.

Variable X : Externals.
Variable compilerHost : CompilerHost.
Variable config : HostConfig.

(** X10. A resource with a template extension ([htm], [html], [svg]) whose
    content is not cached and whose file exists is read from the underlying
    host and returned as it is: the stylesheet processor is not called
    (there need not even be one); the content is cached and the file is
    marked as existing. *)
Theorem template_is_read_unprocessed f s :
  content (cached s f) = None →
  host_fileExists compilerHost f = true →
  isTemplateExtension (path_extname X f) = true →
  let r := readResource X compilerHost config f s in
  r.1 = Ok (host_readFile compilerHost f) ∧
  content (cached r.2 f) = host_readFile compilerHost f ∧
  exists_ (cached r.2 f) = Some true ∧
  trace r.2 = trace s ++ [CallFileExists f; CallReadFile f].
Proof.
  intros Hc Hex Htemplate. cbv zeta. unfold readResource.
  repeat run_step. after_simpl. rewrite Hc. run_step. rewrite Hex. change (negb true) with false. cbv iota. rewrite Htemplate. repeat run_step. rewrite mret_run.
  cbn [fst snd]. unfold setContent, setExists. after_simpl.
  rewrite !decide_True by reflexivity. cbn [content exists_].
  repeat split. now rewrite <- app_assoc.
Qed.

(** X11. Any other resource whose content is not cached and whose file
    exists is read and sent through the stylesheet processor once; the
    processed text is what is returned and cached, and a second read of the
    resource returns it without a call to the underlying host or to the
    processor. *)
Theorem stylesheet_is_processed_once f process s :
  content (cached s f) = None →
  host_fileExists compilerHost f = true →
  isTemplateExtension (path_extname X f) = false →
  stylesheetProcessor config = Some process →
  let css := process f (host_readFile compilerHost f) in
  let r := readResource X compilerHost config f s in
  let again := readResource X compilerHost config f r.2 in
  r.1 = Ok (Some css) ∧
  content (cached r.2 f) = Some css ∧
  exists_ (cached r.2 f) = Some true ∧
  trace r.2 = trace s ++ [CallFileExists f; CallReadFile f;
                          CallProcess f (host_readFile compilerHost f)] ∧
  again.1 = Ok (Some css) ∧
  trace again.2 = trace r.2.
Proof.
  intros Hc Hex Htemplate Hprocessor. cbv zeta.
  assert (Hfirst :
    (readResource X compilerHost config f s).1
      = Ok (Some (process f (host_readFile compilerHost f))) ∧
    content (cached (readResource X compilerHost config f s).2 f)
      = Some (process f (host_readFile compilerHost f)) ∧
    exists_ (cached (readResource X compilerHost config f s).2 f) = Some true ∧
    trace (readResource X compilerHost config f s).2
      = trace s ++ [CallFileExists f; CallReadFile f;
                    CallProcess f (host_readFile compilerHost f)]).
  { unfold readResource.
    repeat run_step. after_simpl. rewrite Hc. run_step. rewrite Hex.
    change (negb true) with false. cbv iota. rewrite Htemplate.
    unfold processStylesheet. rewrite Hprocessor.
    rewrite !bind_assoc_run. repeat run_step. rewrite mret_run.
    cbn [fst snd]. unfold setContent, setExists. after_simpl.
    rewrite !decide_True by reflexivity. cbn [content exists_].
    repeat split. now rewrite <- !app_assoc. }
  destruct Hfirst as (Hr & Hcontent & Hexists & Htrace).
  split; [exact Hr|]. split; [exact Hcontent|]. split; [exact Hexists|].
  split; [exact Htrace|].
  rewrite (readResource_hit X compilerHost config f _ _ Hcontent).
  cbn [fst snd]. split; [reflexivity|]. apply trace_addDependee.
Qed.

(** X12. With no stylesheet processor, the read of such a resource throws
    after the existence check: the file is not read and no content is
    cached. *)
Theorem stylesheet_without_processor_throws f s :
  content (cached s f) = None →
  host_fileExists compilerHost f = true →
  isTemplateExtension (path_extname X f) = false →
  stylesheetProcessor config = None →
  let r := readResource X compilerHost config f s in
  (∃ e, r.1 = Throw e) ∧
  content (cached r.2 f) = None ∧
  trace r.2 = trace s ++ [CallFileExists f].
Proof.
  intros Hc Hex Htemplate Hprocessor. cbv zeta. unfold readResource.
  repeat run_step. after_simpl. rewrite Hc. run_step. rewrite Hex.
  change (negb true) with false. cbv iota. rewrite Htemplate.
  unfold processStylesheet. rewrite Hprocessor.
  rewrite !bind_assoc_run. erewrite bind_throw by reflexivity.
  cbn [fst snd].
  split; [eexists; reflexivity|]. after_simpl. split; [exact Hc|reflexivity].
Qed.

End ResourceCases.

Section InlineStyleCases.
Import Graph CacheHost.

Variable X : Externals.
Variable config : HostConfig.

Lemma getNode_full f s :
  ∃ node, getNode X f s = (Ok node, after (getNode X f) s) ∧
          url node = fileUrl X (ensureUnixPath X f).
Proof.
  destruct (getNode_run X f s) as (node & Hok & Hurl & _). exists node.
  split; [|exact Hurl].
  unfold after. destruct (getNode X f s) as [r s1]. simpl in *. now subst.
Qed.

Lemma graph_updateEntry f g s : graph (after (updateEntry f g) s) = graph s.
Proof. reflexivity. Qed.

Lemma graph_withGraph g s : graph (after (withGraph g) s) = g (graph s).
Proof. reflexivity. Qed.

(** X13. [transformResource] answers [null] and does nothing at all (no
    cache entry, no node, no call) for a resource that has a file of its
    own, for one that is no style, and when no inline style language is
    set. *)
Theorem inline_resource_is_skipped data context s :
  JsString.truthy (resourceFile context)
    || negb (String.eqb (resourceType context) "style")
    || negb (JsString.truthy (inlineStyleLanguage config)) = true →
  transformResource X config data context s = (Ok None, s).
Proof.
  intros Hskip. unfold transformResource.
  destruct (JsString.truthy (resourceFile context)
            || negb (String.eqb (resourceType context) "style"));
    [reflexivity|].
  simpl in Hskip. apply negb_true_iff in Hskip. now rewrite Hskip.
Qed.

(** X14. An inline style is processed under a file name made of the
    containing file, the hash of the style and the inline style language;
    the first time, the processor is called once, its answer is cached
    under that name, the name is marked as existing and gets a node that
    depends on the node of the containing file.  The same style of the
    same file is then answered from the cache without a call. *)
Theorem inline_style_is_processed_once data context lang process s :
  JsString.truthy (resourceFile context) = false →
  resourceType context = "style" →
  inlineStyleLanguage config = Some lang →
  lang ≠ "" →
  stylesheetProcessor config = Some process →
  let fileName :=
    containingFile context +:+ "-" +:+ sha1_hex X data +:+ "." +:+ lang in
  content (cached s fileName) = None →
  let css := process fileName (Some data) in
  let uri p := fileUrl X (ensureUnixPath X p) in
  let r := transformResource X config data context s in
  let again := transformResource X config data context r.2 in
  r.1 = Ok (Some (Some css)) ∧
  trace r.2 = trace s ++ [CallProcess fileName (Some data)] ∧
  content (cached r.2 fileName) = Some css ∧
  exists_ (cached r.2 fileName) = Some true ∧
  (uri fileName, uri (containingFile context)) ∈ edges (graph r.2) ∧
  again.1 = Ok (Some (Some css)) ∧
  trace again.2 = trace r.2.
Proof.
  intros Hfile Htype Hlang Hne Hprocessor. cbv beta zeta.
  set (fileName := containingFile context +:+ "-" +:+ sha1_hex X data +:+ "."
                   +:+ lang).
  intros Hc.
  assert (Hrun : ∀ s0,
    transformResource X config data context s0 =
    (getOrCreate fileName ≫= λ cache,
       match content cache with
       | None =>
           c ← processStylesheet config fileName (mret (Some data));
           setContent fileName (Some c) ;;
           virtualFileNode ← getNode X fileName;
           containingFileNode ← getNode X (containingFile context);
           withGraph (Graph.dependsOn (url virtualFileNode)
                                      (url containingFileNode))
       | Some _ => mret tt
       end ;;
       setExists fileName true ;;
       cache ← getOrCreate fileName;
       mret (Some (content cache))) s0).
  { intros s0. unfold transformResource.
    rewrite Hfile, Htype, Hlang. simpl.
    destruct (String.eqb_spec lang ""); [contradiction|reflexivity]. }
  assert (Hfirst :
    (transformResource X config data context s).1
      = Ok (Some (Some (process fileName (Some data)))) ∧
    trace (transformResource X config data context s).2
      = trace s ++ [CallProcess fileName (Some data)] ∧
    content (cached (transformResource X config data context s).2 fileName)
      = Some (process fileName (Some data)) ∧
    exists_ (cached (transformResource X config data context s).2 fileName)
      = Some true ∧
    (fileUrl X (ensureUnixPath X fileName),
     fileUrl X (ensureUnixPath X (containingFile context)))
      ∈ edges (graph (transformResource X config data context s).2)).
  { rewrite Hrun. run_step. rewrite Hc.
    unfold processStylesheet. rewrite Hprocessor.
    repeat first [run_step | rewrite bind_assoc_run].
    match goal with
    | |- context [(getNode X fileName ≫= _) ?s0] =>
        destruct (getNode_full fileName s0) as (n1 & Hn1 & Hurl1);
        rewrite (bind_ok _ _ _ _ _ Hn1)
    end.
    cbv beta. rewrite ?bind_assoc_run.
    match goal with
    | |- context [(getNode X (containingFile context) ≫= _) ?s0] =>
        destruct (getNode_full (containingFile context) s0)
          as (n2 & Hn2 & Hurl2);
        rewrite (bind_ok _ _ _ _ _ Hn2)
    end.
    repeat first [run_step | rewrite bind_assoc_run].
    rewrite mret_run. cbn [fst snd].
    unfold setContent, setExists. after_simpl.
    rewrite !decide_True by reflexivity. cbn [content exists_].
    repeat split.
    rewrite graph_getOrCreate, graph_updateEntry, graph_withGraph, Hurl1, Hurl2.
    simpl. set_solver. }
  destruct Hfirst as (Hr & Htrace & Hcontent & Hexists & Hedge).
  split; [exact Hr|]. split; [exact Htrace|]. split; [exact Hcontent|].
  split; [exact Hexists|]. split; [exact Hedge|].
  rewrite Hrun. run_step. rewrite Hcontent.
  repeat run_step. rewrite mret_run. cbn [fst snd].
  unfold setExists. after_simpl.
  rewrite !decide_True by reflexivity. cbn [content].
  rewrite Hcontent. split; reflexivity.
Qed.

End InlineStyleCases.

(* ===================================================================== *)
(** * Further properties of the downlevel plugin *)
(* ===================================================================== *)

Section DownlevelCases.
Import Downlevel.

Context {Json : Type}.
Variable digest : string → string.
Variable path_dirname : string → string.
Variable transpileModule : string → CompilerOptions → string * option string.
Variable JSON_parse : string → option Json.

Lemma enabled_path dir : dir ≠ "" → enabled (CacheDirPath dir) = Some dir.
Proof. intros Hdir. simpl. destruct (String.eqb_spec dir ""); congruence. Qed.

(** X15. With a cache directory and an entry under the key of the code, the
    plugin returns the stored code and the stored source map text as it is
    (not parsed); nothing is transpiled and the cache is not written. *)
Theorem downlevel_cache_hit code filePath dir entry st :
  dir ≠ "" →
  disk st !! (dir, generateKey digest code) = Some entry →
  downlevelCodeWithTsc digest path_dirname transpileModule JSON_parse
    code filePath (CacheDirPath dir) st =
  (Ok (mkTransformResult (cachedCode entry) (MapText (cachedMap entry))),
   mkState (disk st)
     (events st ++ [LogDebug ("tsc " +:+ filePath);
                    CacheRead dir (generateKey digest code)])).
Proof.
  intros Hdir Hentry. unfold downlevelCodeWithTsc.
  rewrite (enabled_path _ Hdir).
  unfold mbind, Eff_bind. simpl. rewrite Hentry. simpl.
  now rewrite <- app_assoc.
Qed.

(** X16. With a cache directory and no entry under the key of the code, the
    plugin transpiles once and saves the transpiled code with the source
    map text under that key before it parses the source map: the entry is
    in the cache also when the parse throws.  The result is the transpiled
    code with the parsed source map. *)
Theorem downlevel_cache_miss code filePath dir st :
  dir ≠ "" →
  disk st !! (dir, generateKey digest code) = None →
  let options :=
    mkCompilerOptions ES2015 ESNext true true true true Classic
                      (Some (path_dirname filePath)) in
  let key := generateKey digest code in
  let payload :=
    mkCachePayload (transpileModule code options).1
                   (transpileModule code options).2 in
  downlevelCodeWithTsc digest path_dirname transpileModule JSON_parse
    code filePath (CacheDirPath dir) st =
  (match (transpileModule code options).2 ≫= JSON_parse with
   | Some json =>
       Ok (mkTransformResult (transpileModule code options).1 (MapObject json))
   | None => Throw "SyntaxError: JSON.parse"
   end,
   mkState (<[(dir, key) := payload]> (disk st))
     (events st ++ [LogDebug ("tsc " +:+ filePath); CacheRead dir key;
                    Transpile code options; CacheWrite dir key payload])).
Proof.
  intros Hdir Hentry. cbv zeta. unfold downlevelCodeWithTsc.
  rewrite (enabled_path _ Hdir).
  unfold mbind at 1 2 3, Eff_bind. simpl. rewrite Hentry.
  unfold transpileAndSave. rewrite (enabled_path _ Hdir).
  unfold mbind, Eff_bind, emit, mret, Eff_ret, throw. simpl.
  destruct (transpileModule code _) as [outputText sourceMapText]. simpl.
  rewrite <- !app_assoc. simpl.
  destruct sourceMapText as [t|]; simpl; [destruct (JSON_parse t)|];
    reflexivity.
Qed.

End DownlevelCases.

(* ===================================================================== *)
(** * Further properties of the init-tsconfig transform *)
(* ===================================================================== *)

Section InitTsConfigCases.
Import Graph InitTsConfig.

Variable initializeTsConfig : TsConfig → NgEntryPoint → string → TsConfig.

(** X17. Running the transform again, with the same or with another default
    configuration, gives the graph that this second run alone would have
    given: the entry point found is the same, the configuration assigned
    last is the one that stays, and nothing else of the graph has moved.
    With the same default the second run changes nothing. *)
Theorem initTsConfig_last_run_wins default1 default2 graph graph1 :
  initTsConfigTransformFactory initializeTsConfig default1 graph = Ok graph1 →
  initTsConfigTransformFactory initializeTsConfig default2 graph1
  = initTsConfigTransformFactory initializeTsConfig default2 graph ∧
  initTsConfigTransformFactory initializeTsConfig default1 graph1 = Ok graph1.
Proof.
  unfold initTsConfigTransformFactory, find.
  destruct (list_find isEntryPointInProgress (store graph)) as [[i ep]|]
    eqn:Hfind; [|discriminate].
  apply list_find_Some in Hfind as (Hi & Hp & Hfirst).
  destruct (isEntryPointInProgress_payload _ Hp) as [d Hd].
  destruct ep as [u pl]. simpl in Hd. subst pl. simpl.
  intros [= <-]. simpl.
  set (c1 := initializeTsConfig default1 (entryPoint d) (outDir d)).
  assert (Hfound : list_find isEntryPointInProgress
           (<[i := setTsConfig c1 (mkNode u (EntryPointNode StateInProgress d))]>
              (store graph))
         = Some (i, setTsConfig c1 (mkNode u (EntryPointNode StateInProgress d)))).
  { apply list_find_Some. split; [|split].
    - apply list_lookup_insert_eq. eapply lookup_lt_Some. exact Hi.
    - exact I.
    - intros j y Hj Hlt. rewrite list_lookup_insert_ne in Hj by lia.
      exact (Hfirst j y Hj Hlt). }
  rewrite Hfound. simpl. rewrite !list_insert_insert_eq.
  split; reflexivity.
Qed.

End InitTsConfigCases.

(* ===================================================================== *)
(** * Properties of the runner of the integration samples *)
(* ===================================================================== *)

Section IntegrationSamplesFacts.
Import IntegrationSamples.

Variable P : Process.

Lemma spawned_app l l' : spawned (l ++ l') = spawned l ++ spawned l'.
Proof. apply omap_app. Qed.

Lemma processSample_run testDirectory st :
  ∃ r evs,
    processSample P testDirectory st = (r, st ++ evs) ∧
    spawned evs = option_list (buildOf P testDirectory) ∧
    (r = Ok tt ↔ asExpected P testDirectory = true).
Proof.
  unfold processSample, asExpected, buildOf. cbv zeta.
  destruct (configFileOf P _) as [configFile|]; simpl.
  - unfold mbind, Eff_bind, emit, throw. simpl.
    destruct (statusIsZero _), (JsString.startsWith testDirectory "fail-");
      simpl; eexists _, _; rewrite <- ?app_assoc;
      (split; [reflexivity|split; [reflexivity|]]); simpl;
      split; congruence.
  - unfold mbind, Eff_bind, emit, throw. simpl.
    eexists _, _. split; [reflexivity|]. split; [reflexivity|].
    split; congruence.
Qed.

Lemma forEach_processSample_ok dirs st :
  Forall (λ d, asExpected P d = true) dirs →
  ∃ evs, forEach (processSample P) dirs st = (Ok tt, st ++ evs) ∧
         spawned evs = omap (buildOf P) dirs.
Proof.
  intros Hall. revert st. induction Hall as [|d dirs Hd _ IH]; intros st.
  - exists []. simpl. now rewrite app_nil_r.
  - destruct (processSample_run d st) as (r & evs & Hrun & Hsp & Hr).
    pose proof (proj2 Hr Hd) as ->.
    destruct (IH (st ++ evs)) as (evs' & Hrun' & Hsp').
    exists (evs ++ evs'). simpl. unfold mbind, Eff_bind.
    rewrite Hrun, Hrun', app_assoc. split; [reflexivity|].
    rewrite spawned_app, Hsp, Hsp'.
    unfold asExpected in Hd. destruct (buildOf P d); [reflexivity|discriminate].
Qed.

Lemma forEach_processSample_stops good bad rest st :
  Forall (λ d, asExpected P d = true) good →
  asExpected P bad = false →
  ∃ e evs, forEach (processSample P) (good ++ bad :: rest) st
           = (Throw e, st ++ evs) ∧
           spawned evs = omap (buildOf P) good ++ option_list (buildOf P bad).
Proof.
  intros Hall Hbad. revert st. induction Hall as [|d dirs Hd _ IH]; intros st.
  - destruct (processSample_run bad st) as (r & evs & Hrun & Hsp & Hr).
    destruct r as [[]|e]; [rewrite (proj1 Hr eq_refl) in Hbad; discriminate|].
    exists e, evs. simpl. unfold mbind, Eff_bind. rewrite Hrun. now split.
  - destruct (processSample_run d st) as (r & evs & Hrun & Hsp & Hr).
    pose proof (proj2 Hr Hd) as ->.
    destruct (IH (st ++ evs)) as (e & evs' & Hrun' & Hsp').
    exists e, (evs ++ evs'). simpl. unfold mbind, Eff_bind.
    rewrite Hrun, Hrun', app_assoc. split; [reflexivity|].
    rewrite spawned_app, Hsp, Hsp'.
    unfold asExpected in Hd.
    destruct (buildOf P d); [reflexivity|discriminate].
Qed.

Lemma processSamples_forEach dirs st :
  processSamples P dirs st
  = forEach (processSample P) dirs
      (st ++ [ConsoleLog ("Processing integration samples: "
                          +:+ String.concat newline dirs)]).
Proof. reflexivity. Qed.

Lemma split_at_first_failure dirs :
  ¬ Forall (λ d, asExpected P d = true) dirs →
  ∃ good bad rest,
    dirs = good ++ bad :: rest ∧
    Forall (λ d, asExpected P d = true) good ∧ asExpected P bad = false.
Proof.
  induction dirs as [|d dirs IH]; intros Hnot.
  - destruct Hnot. constructor.
  - destruct (asExpected P d) eqn:Hd.
    + destruct IH as (good & bad & rest & -> & Hgood & Hbad).
      { intros Hall. apply Hnot. now constructor. }
      exists (d :: good), bad, rest. repeat split; [|exact Hbad].
      now constructor.
    + exists [], d, dirs. repeat split; [constructor|exact Hd].
Qed.

(** X18. The run of the integration samples returns, rather than throws,
    exactly when every sample directory has one of the four configuration
    files and its build exits with status 0 if and only if the name of the
    directory does not start with [fail-]; it has then spawned the build of
    every sample, in the order of the directories. *)
Theorem samples_pass_iff_all_as_expected testDirectories st :
  ((processSamples P testDirectories st).1 = Ok tt
   ↔ Forall (λ d, asExpected P d = true) testDirectories) ∧
  ((processSamples P testDirectories st).1 = Ok tt →
   spawned (processSamples P testDirectories st).2
   = spawned st ++ omap (buildOf P) testDirectories).
Proof.
  rewrite processSamples_forEach.
  set (st0 := st ++ _).
  assert (Hst0 : spawned st0 = spawned st).
  { unfold st0. rewrite spawned_app. simpl. apply app_nil_r. }
  destruct (decide (Forall (λ d, asExpected P d = true) testDirectories))
    as [Hall|Hnot].
  - destruct (forEach_processSample_ok _ st0 Hall) as (evs & Hrun & Hsp).
    rewrite Hrun. simpl. split; [tauto|]. intros _.
    now rewrite spawned_app, Hst0, Hsp.
  - destruct (split_at_first_failure _ Hnot)
      as (good & bad & rest & -> & Hgood & Hbad).
    destruct (forEach_processSample_stops good bad rest st0 Hgood Hbad)
      as (e & evs & Hrun & _).
    rewrite Hrun. simpl. split; [|discriminate].
    split; [discriminate|tauto].
Qed.

(** X19. The run stops at the first sample that is not as expected: it
    throws, the builds spawned are those of the samples before it and, when
    it has a configuration file, its own; no sample after it is built. *)
Theorem samples_stop_at_first_failure good bad rest st :
  Forall (λ d, asExpected P d = true) good →
  asExpected P bad = false →
  (∃ e, (processSamples P (good ++ bad :: rest) st).1 = Throw e) ∧
  spawned (processSamples P (good ++ bad :: rest) st).2
  = spawned st ++ omap (buildOf P) good ++ option_list (buildOf P bad).
Proof.
  intros Hgood Hbad. rewrite processSamples_forEach.
  set (st0 := st ++ _).
  assert (Hst0 : spawned st0 = spawned st).
  { unfold st0. rewrite spawned_app. simpl. apply app_nil_r. }
  destruct (forEach_processSample_stops good bad rest st0 Hgood Hbad)
    as (e & evs & Hrun & Hsp).
  rewrite Hrun. simpl. split; [now exists e|].
  now rewrite spawned_app, Hst0, Hsp.
Qed.

End IntegrationSamplesFacts.

(* ===================================================================== *)
(** * The name under which an output is cached *)
(* ===================================================================== *)

Section JsExtensionFacts.

Lemma drop_drop n m s :
  JsString.drop m (JsString.drop n s) = JsString.drop (n + m) s.
Proof.
  revert s. induction n as [|n IH]; intros s; [reflexivity|].
  destruct s as [|c s]; [now destruct m|]. simpl. apply IH.
Qed.

Lemma drop_length_append a b n :
  JsString.drop (String.length a + n) (a +:+ b) = JsString.drop n b.
Proof.
  rewrite <- drop_drop. now rewrite drop_append.
Qed.

(** A suffix no longer than the part appended is a suffix of that part. *)
Lemma endsWith_in_appended a b p :
  (String.length p <= String.length b)%nat →
  JsString.endsWith (a +:+ b) p = JsString.endsWith b p.
Proof.
  intros Hle. unfold JsString.endsWith. rewrite length_append.
  replace (String.length a + String.length b - String.length p)
    with (String.length a + (String.length b - String.length p)) by lia.
  rewrite drop_length_append. f_equal.
  destruct (Nat.leb_spec (String.length p) (String.length b)); [|lia].
  apply Nat.leb_le. lia.
Qed.

(** A suffix longer than the part appended ends with that part. *)
Lemma endsWith_beyond_appended a b p :
  (String.length b <= String.length p)%nat →
  JsString.endsWith (a +:+ b) p = true →
  JsString.endsWith p b = true.
Proof.
  intros Hle. unfold JsString.endsWith. rewrite length_append.
  intros [Hlen Heq]%andb_true_iff.
  apply Nat.leb_le in Hlen. apply String.eqb_eq in Heq.
  apply andb_true_iff. split; [now apply Nat.leb_le|].
  apply String.eqb_eq. rewrite <- Heq at 2. rewrite drop_drop.
  replace (String.length a + String.length b - String.length p
           + (String.length p - String.length b))
    with (String.length a) by lia.
  apply drop_append.
Qed.

(** X20. The name under which an output is cached: [.js] at the end becomes
    [.mjs], [.js.map] at the end becomes [.mjs.map], and a name so renamed
    is not renamed again (renaming twice is renaming once). *)
Theorem js_extension_renamed_once base fileName :
  JsString.replaceJsExtension (base +:+ ".js") = base +:+ ".mjs" ∧
  JsString.replaceJsExtension (base +:+ ".js.map") = base +:+ ".mjs.map" ∧
  JsString.replaceJsExtension (JsString.replaceJsExtension fileName)
  = JsString.replaceJsExtension fileName.
Proof.
  assert (Hfixed : ∀ t,
    JsString.replaceJsExtension (t +:+ ".mjs") = t +:+ ".mjs" ∧
    JsString.replaceJsExtension (t +:+ ".mjs.map") = t +:+ ".mjs.map").
  { intros t. unfold JsString.replaceJsExtension.
    rewrite !(endsWith_in_appended t ".mjs.map") by (simpl; lia).
    rewrite (endsWith_in_appended t ".mjs" ".js") by (simpl; lia).
    destruct (JsString.endsWith (t +:+ ".mjs") ".js.map") eqn:Hlong.
    - apply endsWith_beyond_appended in Hlong; [discriminate|simpl; lia].
    - split; reflexivity. }
  split; [|split].
  - unfold JsString.replaceJsExtension.
    destruct (JsString.endsWith (base +:+ ".js") ".js.map") eqn:Hlong.
    { apply endsWith_beyond_appended in Hlong; [discriminate|simpl; lia]. }
    rewrite endsWith_append, length_append.
    replace (String.length base + String.length ".js" - 3)
      with (String.length base) by (simpl; lia).
    now rewrite take_append.
  - unfold JsString.replaceJsExtension.
    rewrite endsWith_append, length_append.
    replace (String.length base + String.length ".js.map" - 7)
      with (String.length base) by (simpl; lia).
    now rewrite take_append.
  - unfold JsString.replaceJsExtension at 2 3.
    destruct (JsString.endsWith fileName ".js.map") eqn:Hmap;
      [apply (proj2 (Hfixed _))|].
    destruct (JsString.endsWith fileName ".js") eqn:Hjs;
      [apply (proj1 (Hfixed _))|].
    unfold JsString.replaceJsExtension. now rewrite Hmap, Hjs.
Qed.

End JsExtensionFacts.

(* ===================================================================== *)
(** * Reads that find nothing *)
(* ===================================================================== *)

Section MissingFileCases.
Import Graph CacheHost.

Variable X : Externals.
Variable compilerHost : CompilerHost.
Variable config : HostConfig.

(** X21. A source file that the underlying host cannot give is not cached
    as missing: [getSourceFile] answers [undefined], leaves the cached
    field empty, and the next call asks the underlying host again. *)
Theorem missing_source_file_is_asked_again f v s :
  sourceFile (cached s f) = None →
  host_getSourceFile compilerHost f v = None →
  let r := getSourceFile X compilerHost config f v s in
  let again := getSourceFile X compilerHost config f v r.2 in
  r.1 = Ok None ∧
  sourceFile (cached r.2 f) = None ∧
  trace r.2 = trace s ++ [CallGetSourceFile f v] ∧
  again.1 = Ok None ∧
  trace again.2 = trace s ++ [CallGetSourceFile f v; CallGetSourceFile f v].
Proof.
  intros Hc Hhost. cbv zeta.
  assert (Hone : ∀ s0, sourceFile (cached s0 f) = None →
    (getSourceFile X compilerHost config f v s0).1 = Ok None ∧
    sourceFile (cached (getSourceFile X compilerHost config f v s0).2 f) = None ∧
    trace (getSourceFile X compilerHost config f v s0).2
      = trace s0 ++ [CallGetSourceFile f v]).
  { intros s0 Hs0. unfold getSourceFile.
    repeat run_step. after_simpl. rewrite Hs0. rewrite Hhost.
    repeat run_step. rewrite mret_run. cbn [fst snd].
    unfold setSourceFile. after_simpl.
    rewrite decide_True by reflexivity. cbn [sourceFile].
    repeat split. }
  destruct (Hone s Hc) as (Hr & Hcached & Htrace).
  destruct (Hone _ Hcached) as (Hr' & _ & Htrace').
  repeat split; try assumption.
  rewrite Htrace', Htrace, <- app_assoc. reflexivity.
Qed.

(** X22. Likewise for the content of a file: when the underlying host has no
    content for it, [readFile] answers [undefined], caches nothing, and the
    next call asks the underlying host again. *)
Theorem missing_content_is_asked_again f s :
  content (cached s f) = None →
  host_readFile compilerHost f = None →
  let r := readFile X compilerHost config f s in
  let again := readFile X compilerHost config f r.2 in
  r.1 = Ok None ∧
  content (cached r.2 f) = None ∧
  trace r.2 = trace s ++ [CallReadFile f] ∧
  again.1 = Ok None ∧
  trace again.2 = trace s ++ [CallReadFile f; CallReadFile f].
Proof.
  intros Hc Hhost. cbv zeta.
  assert (Hone : ∀ s0, content (cached s0 f) = None →
    (readFile X compilerHost config f s0).1 = Ok None ∧
    content (cached (readFile X compilerHost config f s0).2 f) = None ∧
    trace (readFile X compilerHost config f s0).2
      = trace s0 ++ [CallReadFile f]).
  { intros s0 Hs0. unfold readFile.
    repeat run_step. after_simpl. rewrite Hs0. rewrite Hhost.
    repeat run_step. rewrite mret_run. cbn [fst snd].
    unfold setContent. after_simpl.
    rewrite decide_True by reflexivity. cbn [content].
    repeat split. }
  destruct (Hone s Hc) as (Hr & Hcached & Htrace).
  destruct (Hone _ Hcached) as (Hr' & _ & Htrace').
  repeat split; try assumption.
  rewrite Htrace', Htrace, <- app_assoc. reflexivity.
Qed.

End MissingFileCases.

(* ===================================================================== *)
(** * The further properties at concrete inputs *)
(* ===================================================================== *)

(** X1 on the library with the entry file [index.ts]. *)
Lemma index_entry_writes_no_flat_declaration_witness :
  CacheHost.hasIndexEntryFile Sample.X Sample.indexConfig = true ∧
  CacheHost.writeFile Sample.X Sample.indexConfig "/dist/lib/lib.d.ts"
    "export * from './index';" false (Some []) CacheHost.initial
  = (Ok tt, CacheHost.initial).
Proof.
  split; [reflexivity|].
  apply (index_entry_writes_no_flat_declaration Sample.X Sample.indexConfig
           "export * from './index';" false (Some []) CacheHost.initial);
    reflexivity.
Defined.

(** X2 on the library with the entry file [public_api.ts]. *)
Lemma flat_declaration_written_as_index_witness :
  CacheHost.hasIndexEntryFile Sample.X Sample.config = false ∧
  JsSearch.indexOf "/dist/lib/lib.d.ts" "lib.d.ts" = Some 10 ∧
  CacheHost.trace
    (CacheHost.writeFile Sample.X Sample.config "/dist/lib/lib.d.ts"
       "export * from './public_api';" false (Some []) CacheHost.initial).2
  = [CacheHost.CallWriteFile "/dist/lib/index.d.ts"
       "export * from './public_api';" false].
Proof.
  split; [reflexivity|]. split; [reflexivity|].
  apply (flat_declaration_written_as_index Sample.X Sample.config
           "/dist/lib/" "export * from './public_api';" false []
           CacheHost.initial); reflexivity.
Defined.

(** X3 on the declaration of [a.ts]. *)
Lemma declaration_written_under_its_name_witness :
  JsString.endsWith "/dist/lib/src/a.d.ts" ".d.ts" = true ∧
  CacheHost.trace
    (CacheHost.writeFile Sample.X Sample.config "/dist/lib/src/a.d.ts"
       "export declare const a = 1;" false (Some []) CacheHost.initial).2
  = [CacheHost.CallWriteFile "/dist/lib/src/a.d.ts"
       "export declare const a = 1;" false].
Proof.
  split; [reflexivity|].
  apply (declaration_written_under_its_name Sample.X Sample.config
           "/dist/lib/src/a.d.ts" "export declare const a = 1;" false []
           CacheHost.initial); reflexivity.
Defined.

(** X4 on the declaration of [a.ts], written without source files. *)
Lemma declaration_without_sources_throws_witness :
  JsString.endsWith "/dist/lib/src/a.d.ts" ".d.ts" = true ∧
  ∃ e, CacheHost.writeFile Sample.X Sample.config "/dist/lib/src/a.d.ts"
         "export declare const a = 1;" false None CacheHost.initial
       = (Throw e, CacheHost.initial).
Proof.
  split; [reflexivity|].
  apply (declaration_without_sources_throws Sample.X Sample.config
           "/dist/lib/src/a.d.ts" "export declare const a = 1;" false
           CacheHost.initial); reflexivity.
Defined.

(** X5 on the output [a.js]. *)
Lemma output_is_cached_under_its_mjs_name_witness :
  let s1 :=
    (CacheHost.writeFile Sample.X Sample.config "/dist/lib/esm/a.js"
       "export const a = 1;" false None CacheHost.initial).2 in
  JsString.replaceJsExtension "/dist/lib/esm/a.js" = "/dist/lib/esm/a.mjs" ∧
  last (CacheHost.trace s1)
  = Some (CacheHost.CallWriteFile "/dist/lib/esm/a.mjs"
            "export const a = 1;" false).
Proof.
  cbv zeta. split; [reflexivity|].
  apply (output_is_cached_under_its_mjs_name Sample.X Sample.config
           "/dist/lib/esm/a.js" "export const a = 1;" false None
           CacheHost.initial); reflexivity.
Defined.

(** X6 on the output [a.js], with the extractor that throws. *)
Lemma failed_extraction_writes_nothing_witness :
  CacheHost.fromComment_toJSON SampleCases.brokenMaps "export const a = 1;"
    = None ∧
  ∃ e, CacheHost.writeFile SampleCases.brokenMaps Sample.config
         "/dist/lib/esm/a.js" "export const a = 1;" false None
         CacheHost.initial
       = (Throw e,
          CacheHost.mkState (CacheHost.graph CacheHost.initial)
            (CacheHost.sourcesFileCache CacheHost.initial)
            (CacheHost.outputCache CacheHost.initial)
            (CacheHost.trace CacheHost.initial
             ++ [CacheHost.CallFromComment "export const a = 1;"])).
Proof.
  split; [reflexivity|].
  apply (failed_extraction_writes_nothing SampleCases.brokenMaps
           Sample.config "/dist/lib/esm/a.js" "export const a = 1;" false
           None CacheHost.initial); try reflexivity.
  intros cachedData Hnone. discriminate Hnone.
Defined.

(** X10 on the template [a.html]. *)
Lemma template_is_read_unprocessed_witness :
  CacheHost.isTemplateExtension
    (CacheHost.path_extname Sample.X "/lib/src/a.html") = true ∧
  (CacheHost.readResource Sample.X Sample.host Sample.nestedConfig
     "/lib/src/a.html" CacheHost.initial).1
  = Ok (Some "<p>a</p>").
Proof.
  split; [reflexivity|].
  apply (template_is_read_unprocessed Sample.X Sample.host
           Sample.nestedConfig "/lib/src/a.html" CacheHost.initial);
    reflexivity.
Defined.

(** X11 on the stylesheet [a.scss]. *)
Lemma stylesheet_is_processed_once_witness :
  let r :=
    CacheHost.readResource Sample.X SampleCases.styledHost Sample.config
      "/lib/src/a.scss" CacheHost.initial in
  let again :=
    CacheHost.readResource Sample.X SampleCases.styledHost Sample.config
      "/lib/src/a.scss" r.2 in
  CacheHost.isTemplateExtension
    (CacheHost.path_extname Sample.X "/lib/src/a.scss") = false ∧
  r.1 = Ok (Some ".a { color: red }") ∧
  CacheHost.trace again.2 = CacheHost.trace r.2.
Proof.
  cbv zeta. split; [reflexivity|].
  pose proof (stylesheet_is_processed_once Sample.X SampleCases.styledHost
                Sample.config "/lib/src/a.scss" (λ _ c, default "" c)
                CacheHost.initial eq_refl eq_refl eq_refl eq_refl) as H.
  cbv zeta in H. split; [apply H|apply H].
Defined.

(** X12 on the stylesheet [a.scss], for a host made without a stylesheet
    processor. *)
Lemma stylesheet_without_processor_throws_witness :
  CacheHost.stylesheetProcessor Sample.nestedConfig = None ∧
  CacheHost.trace
    (CacheHost.readResource Sample.X SampleCases.styledHost
       Sample.nestedConfig "/lib/src/a.scss" CacheHost.initial).2
  = [CacheHost.CallFileExists "/lib/src/a.scss"].
Proof.
  split; [reflexivity|].
  apply (stylesheet_without_processor_throws Sample.X SampleCases.styledHost
           Sample.nestedConfig "/lib/src/a.scss" CacheHost.initial);
    reflexivity.
Defined.

(** X13 on a style that has a file of its own. *)
Lemma inline_resource_is_skipped_witness :
  JsString.truthy (CacheHost.resourceFile SampleCases.fileStyle) = true ∧
  CacheHost.transformResource Sample.X Sample.config ".a { color: red }"
    SampleCases.fileStyle CacheHost.initial
  = (Ok None, CacheHost.initial).
Proof.
  split; [reflexivity|].
  apply (inline_resource_is_skipped Sample.X Sample.config
           ".a { color: red }" SampleCases.fileStyle CacheHost.initial);
    reflexivity.
Defined.

(** X14 on an inline style of [a.ts]. *)
Lemma inline_style_is_processed_once_witness :
  let r :=
    CacheHost.transformResource Sample.X Sample.config ".a { color: red }"
      SampleCases.inlineStyle CacheHost.initial in
  CacheHost.inlineStyleLanguage Sample.config = Some "scss" ∧
  r.1 = Ok (Some (Some ".a { color: red }")) ∧
  CacheHost.trace r.2
  = [CacheHost.CallProcess "/lib/src/a.ts-sha1(.a { color: red }).scss"
       (Some ".a { color: red }")].
Proof.
  cbv zeta. split; [reflexivity|].
  assert (Hlang : "scss" ≠ "") by discriminate.
  pose proof (inline_style_is_processed_once Sample.X Sample.config
                ".a { color: red }" SampleCases.inlineStyle "scss"
                (λ _ c, default "" c) CacheHost.initial
                eq_refl eq_refl eq_refl Hlang eq_refl) as H.
  cbv zeta in H. specialize (H eq_refl). split; apply H.
Defined.

(** X15 on a cache that holds the transpiled [let a = 1;]. *)
Lemma downlevel_cache_hit_witness :
  let st :=
    Downlevel.mkState
      {[ ("/cache", Downlevel.generateKey (λ c, c) "let a = 1;")
         := Downlevel.mkCachePayload "var a = 1;" (Some "{}") ]} [] in
  (Downlevel.downlevelCodeWithTsc (λ c, c) Sample.dirname
     (λ code _, (code, Some "{}")) (λ t : string, Some t)
     "let a = 1;" "/lib/fesm/lib.js" (Downlevel.CacheDirPath "/cache") st).1
  = Ok (Downlevel.mkTransformResult "var a = 1;"
          (Downlevel.MapText (Some "{}"))).
Proof.
  cbv zeta.
  assert (Hdir : "/cache" ≠ "") by discriminate.
  rewrite (downlevel_cache_hit (λ c, c) Sample.dirname
             (λ code _, (code, Some "{}")) (λ t : string, Some t)
             "let a = 1;" "/lib/fesm/lib.js" "/cache"
             (Downlevel.mkCachePayload "var a = 1;" (Some "{}")) _ Hdir
             (lookup_singleton_eq _ _)).
  reflexivity.
Defined.

(** X16 on an empty cache. *)
Lemma downlevel_cache_miss_witness :
  Downlevel.events
    (Downlevel.downlevelCodeWithTsc (λ c, c) Sample.dirname
       (λ code _, (code, Some "{}")) (λ t : string, Some t)
       "let a = 1;" "/lib/fesm/lib.js" (Downlevel.CacheDirPath "/cache")
       (Downlevel.mkState ∅ [])).2
  = [Downlevel.LogDebug "tsc /lib/fesm/lib.js";
     Downlevel.CacheRead "/cache" (Downlevel.generateKey (λ c, c) "let a = 1;");
     Downlevel.Transpile "let a = 1;"
       (Downlevel.mkCompilerOptions Downlevel.ES2015 Downlevel.ESNext
          true true true true Downlevel.Classic (Some "/lib/fesm"));
     Downlevel.CacheWrite "/cache"
       (Downlevel.generateKey (λ c, c) "let a = 1;")
       (Downlevel.mkCachePayload "let a = 1;" (Some "{}"))].
Proof.
  assert (Hdir : "/cache" ≠ "") by discriminate.
  pose proof (downlevel_cache_miss (λ c, c) Sample.dirname
                (λ code _, (code, Some "{}")) (λ t : string, Some t)
                "let a = 1;" "/lib/fesm/lib.js" "/cache"
                (Downlevel.mkState ∅ []) Hdir (lookup_empty _)) as H.
  cbv zeta in H. rewrite H. reflexivity.
Defined.

(** X19 on the checkout: [fail-bad] builds although its name says that it
    fails; [apf] and [fail-bad] are built, [later] is not. *)
Lemma samples_stop_at_first_failure_witness :
  IntegrationSamples.asExpected SampleCases.checkout "apf" = true ∧
  IntegrationSamples.asExpected SampleCases.checkout "fail-bad" = false ∧
  IntegrationSamples.spawned
    (IntegrationSamples.processSamples SampleCases.checkout
       ["apf"; "fail-bad"; "later"] []).2
  = [[IntegrationSamples.ArgString "dist/cli/main.js";
      IntegrationSamples.ArgString "-p";
      IntegrationSamples.ArgString
        "/repo/integration/samples/apf/ng-package.json"];
     [IntegrationSamples.ArgString "dist/cli/main.js";
      IntegrationSamples.ArgString "-p";
      IntegrationSamples.ArgString
        "/repo/integration/samples/fail-bad/package.json"]].
Proof.
  split; [reflexivity|]. split; [reflexivity|].
  apply (samples_stop_at_first_failure SampleCases.checkout
           ["apf"] "fail-bad" ["later"] []).
  - constructor; [reflexivity|constructor].
  - reflexivity.
Defined.

(** X21 on a source file that is not on disk. *)
Lemma missing_source_file_is_asked_again_witness :
  CacheHost.host_getSourceFile Sample.host "/lib/src/b.ts" 99 = None ∧
  CacheHost.trace
    (CacheHost.getSourceFile Sample.X Sample.host Sample.config
       "/lib/src/b.ts" 99
       (CacheHost.getSourceFile Sample.X Sample.host Sample.config
          "/lib/src/b.ts" 99 CacheHost.initial).2).2
  = [CacheHost.CallGetSourceFile "/lib/src/b.ts" 99;
     CacheHost.CallGetSourceFile "/lib/src/b.ts" 99].
Proof.
  split; [reflexivity|].
  apply (missing_source_file_is_asked_again Sample.X Sample.host
           Sample.config "/lib/src/b.ts" 99 CacheHost.initial);
    reflexivity.
Defined.

(** X22 on a file that is not on disk. *)
Lemma missing_content_is_asked_again_witness :
  CacheHost.host_readFile Sample.host "/lib/src/b.ts" = None ∧
  CacheHost.trace
    (CacheHost.readFile Sample.X Sample.host Sample.config "/lib/src/b.ts"
       (CacheHost.readFile Sample.X Sample.host Sample.config
          "/lib/src/b.ts" CacheHost.initial).2).2
  = [CacheHost.CallReadFile "/lib/src/b.ts";
     CacheHost.CallReadFile "/lib/src/b.ts"].
Proof.
  split; [reflexivity|].
  apply (missing_content_is_asked_again Sample.X Sample.host Sample.config
           "/lib/src/b.ts" CacheHost.initial); reflexivity.
Defined.

(** X17 on a graph with one entry point in progress: the second run, with
    another default, decides the configuration. *)
Lemma initTsConfig_last_run_wins_witness :
  InitTsConfig.initTsConfigTransformFactory SampleCases.initialize
    [("target", "es2020")] (SampleCases.graphOf None)
  = Ok (SampleCases.graphOf (Some [("outDir", "/out"); ("target", "es2020")])) ∧
  InitTsConfig.initTsConfigTransformFactory SampleCases.initialize
    [("target", "es2022")]
    (SampleCases.graphOf (Some [("outDir", "/out"); ("target", "es2020")]))
  = Ok (SampleCases.graphOf (Some [("outDir", "/out"); ("target", "es2022")])).
Proof.
  split; [reflexivity|].
  rewrite (proj1 (initTsConfig_last_run_wins SampleCases.initialize
             [("target", "es2020")] [("target", "es2022")]
             (SampleCases.graphOf None)
             (SampleCases.graphOf
                (Some [("outDir", "/out"); ("target", "es2020")]))
             eq_refl)).
  reflexivity.
Defined.
